(** * Time-windowed retrieval of archived event batches (python_sample.py)

    A shallow embedding of [python_sample.py]: the key clock
    ([get_last_timestamp]), the paginated lister ([get_s3_keys]), the
    per-object drain loop ([retrieve_objects]) and the entry point ([main]),
    followed by the properties of the written specification that concern
    them.

    Python values are modelled as follows: [int] as [Z], [str] as [string]
    (ASCII code points), exceptions as values of [exn] carried by [result],
    the object store as the answers it gives ([listing], [body]), the file
    [output.csv] as the list of the lines it holds. *)

From Stdlib Require Import ZArith List String Ascii Bool Lia.
Import ListNotations.

Open Scope string_scope.
Open Scope Z_scope.

(** ** Exceptions and results *)

(** The exception classes that the code can meet. [OSError] stands for
    [gzip.BadGzipFile], [ClientError] for [botocore.exceptions.ClientError];
    [ValueError] covers its subclasses, among them pandas'
    [OutOfBoundsDatetime]. *)
Inductive exn : Set :=
| ClientError
| KeyError
| ValueError
| NameError
| OSError
| EOFError
| TypeError
| IndexError
| OverflowError.

Inductive result (A : Type) : Type :=
| Return (a : A)
| Raise (e : exn).

Arguments Return {A} a.
Arguments Raise {A} e.

Definition bind {A B : Type} (r : result A) (k : A -> result B) : result B :=
  match r with
  | Return a => k a
  | Raise e => Raise e
  end.

Notation "x <- r ;; k" := (bind r (fun x => k))
  (at level 61, r at next level, right associativity).

Fixpoint mapM {A B : Type} (f : A -> result B) (l : list A) : result (list B) :=
  match l with
  | [] => Return []
  | a :: l' => b <- f a ;; bs <- mapM f l' ;; Return (b :: bs)
  end.

(** ** Python string operations used by the key clock *)

(** [s.split(sep)] for a one-character separator: never an empty list. *)
Fixpoint split (sep : ascii) (s : string) : list string :=
  match s with
  | EmptyString => [EmptyString]
  | String c s' =>
      if Ascii.eqb c sep then EmptyString :: split sep s'
      else match split sep s' with
           | [] => [String c EmptyString]
           | t :: ts => String c t :: ts
           end
  end.

(** [sep.join(parts)]. *)
Fixpoint join (sep : ascii) (parts : list string) : string :=
  match parts with
  | [] => EmptyString
  | [p] => p
  | p :: ps => p ++ String sep (join sep ps)
  end.

(** [s.rsplit(sep, maxsplit)]: at most [maxsplit] cuts, taken from the
    right; what is left of the leftmost cut stays in one piece. *)
Definition rsplit (sep : ascii) (maxsplit : nat) (s : string) : list string :=
  let parts := split sep s in
  let uncut := (List.length parts - 1 - maxsplit)%nat in
  join sep (firstn (S uncut) parts) :: skipn (S uncut) parts.

(** [os.path.basename(p)] (posixpath): [p[p.rfind('/') + 1:]], the piece
    after the last slash. *)
Definition basename (p : string) : string :=
  last (split "/" p) EmptyString.

(** Whitespace that [int()] strips from an ASCII string: tab, line feed,
    vertical tab, form feed, carriage return and space. *)
Definition is_space (c : ascii) : bool :=
  let n := nat_of_ascii c in
  ((9 <=? n)%nat && (n <=? 13)%nat) || (n =? 32)%nat.

Fixpoint lstrip (s : string) : string :=
  match s with
  | EmptyString => EmptyString
  | String c s' => if is_space c then lstrip s' else s
  end.

Fixpoint rstrip (s : string) : string :=
  match s with
  | EmptyString => EmptyString
  | String c s' =>
      match rstrip s' with
      | EmptyString => if is_space c then EmptyString else String c EmptyString
      | r => String c r
      end
  end.

Definition digit_of (c : ascii) : option Z :=
  let n := nat_of_ascii c in
  if ((48 <=? n)%nat && (n <=? 57)%nat)%bool then Some (Z.of_nat (n - 48)) else None.

(** Decimal digits with single underscores allowed between digits. *)
Fixpoint parse_digits (need_digit : bool) (acc : Z) (s : string) : option Z :=
  match s with
  | EmptyString => if need_digit then None else Some acc
  | String c s' =>
      match digit_of c with
      | Some d => parse_digits false (acc * 10 + d) s'
      | None =>
          if (Ascii.eqb c "_" && negb need_digit)%bool
          then parse_digits true acc s'
          else None
      end
  end.

(** Number of decimal digits in a string. *)
Fixpoint digit_count (s : string) : Z :=
  match s with
  | EmptyString => 0
  | String c s' =>
      match digit_of c with
      | Some _ => 1 + digit_count s'
      | None => digit_count s'
      end
  end.

(** [sys.get_int_max_str_digits()]: longer digit strings are refused. *)
Definition int_max_str_digits : Z := 4300.

Definition parse_decimal (s : string) : option Z :=
  if int_max_str_digits <? digit_count s then None
  else parse_digits true 0 s.

(** [int(s)] on a string of ASCII characters, base 10: [None] is
    [ValueError]. *)
Definition py_int (s : string) : option Z :=
  match rstrip (lstrip s) with
  | String "+" r => parse_decimal r
  | String "-" r => option_map Z.opp (parse_decimal r)
  | t => parse_decimal t
  end.

(** [map(int, s.split('-'))] unpacked into three names: a wrong number of
    pieces and a piece that is no integer both raise [ValueError]. *)
Definition three_ints (s : string) : result (Z * Z * Z) :=
  match split "-" s with
  | [a; b; c] =>
      match py_int a, py_int b, py_int c with
      | Some x, Some y, Some z => Return (x, y, z)
      | _, _, _ => Raise ValueError
      end
  | _ => Raise ValueError
  end.

(** ** datetime *)

Definition _is_leap (year : Z) : bool :=
  (year mod 4 =? 0) && (negb (year mod 100 =? 0) || (year mod 400 =? 0)).

Definition _days_before_year (year : Z) : Z :=
  let y := year - 1 in
  y * 365 + y / 4 - y / 100 + y / 400.

Definition _DAYS_IN_MONTH : list Z :=
  [31; 28; 31; 30; 31; 30; 31; 31; 30; 31; 30; 31].

Definition _DAYS_BEFORE_MONTH : list Z :=
  [0; 31; 59; 90; 120; 151; 181; 212; 243; 273; 304; 334].

Definition _days_in_month (year month : Z) : Z :=
  if (month =? 2) && _is_leap year then 29
  else nth (Z.to_nat (month - 1)) _DAYS_IN_MONTH 0.

Definition _days_before_month (year month : Z) : Z :=
  nth (Z.to_nat (month - 1)) _DAYS_BEFORE_MONTH 0
  + (if (month >? 2) && _is_leap year then 1 else 0).

Definition _ymd2ord (year month day : Z) : Z :=
  _days_before_year year + _days_before_month year month + day.

Record datetime_t : Set := mk_datetime {
  dt_year : Z; dt_month : Z; dt_day : Z;
  dt_hour : Z; dt_minute : Z; dt_second : Z
}.

Definition fits_c_int (n : Z) : bool :=
  (- 2147483648 <=? n) && (n <=? 2147483647).

Definition between (lo n hi : Z) : bool := (lo <=? n) && (n <=? hi).

(** [datetime(year, month, day, hour, minute, second)]. *)
Definition datetime (year month day hour minute second : Z) : result datetime_t :=
  if negb (forallb fits_c_int [year; month; day; hour; minute; second])
  then Raise OverflowError
  else if between 1 year 9999 && between 1 month 12
          && between 1 day (_days_in_month year month)
          && between 0 hour 23 && between 0 minute 59 && between 0 second 59
  then Return (mk_datetime year month day hour minute second)
  else Raise ValueError.

(** [int(dt.replace(tzinfo=pytz.utc).timestamp())]: the distance to
    1970-01-01T00:00:00Z, in seconds. *)
Definition utc_timestamp (dt : datetime_t) : Z :=
  (_ymd2ord (dt_year dt) (dt_month dt) (dt_day dt) - _ymd2ord 1970 1 1) * 86400
  + (dt_hour dt * 3600 + dt_minute dt * 60 + dt_second dt).

(** ** KeyClock: [get_last_timestamp] *)

(** [os.path.basename(filename).rsplit('.', 2)[0]]. *)
Definition stem (filename : string) : string :=
  hd EmptyString (rsplit "." 2 (basename filename)).

Definition get_last_timestamp (filename : string) : result Z :=
  match split "_" (stem filename) with
  | [date; time; _] =>
      ymd <- three_ints date ;;
      hms <- three_ints time ;;
      let '(year, month, day) := ymd in
      let '(hour, minute, second) := hms in
      dt <- datetime year month day hour minute second ;;
      Return (utc_timestamp dt)
  | _ => Raise ValueError
  end.

(** ** The object store, as the code sees it *)

(** The answers to the paginated [list_objects_v2] calls of one listing:
    a call either raises, or returns a page with its ['Contents'] (absent
    when the page lists no object); a page that carries a
    ['NextContinuationToken'] is followed by the answer to the call that
    sends it. *)
Inductive listing : Type :=
| ListFails
| LastPage (contents : option (list string))
| MorePages (contents : option (list string)) (next : listing).

(** A pandas cell: a missing value ([NaN], [NaT], [None]), a string, or a
    point in time in nanoseconds since the epoch. *)
Inductive cell : Set :=
| Null
| Str (s : string)
| Time (t : Z).

Record DataFrame : Set := mk_frame {
  columns : list string;
  rows : list (list cell)
}.

(** The bytes of one stored object, by what the decoding calls make of
    them: no gzip stream, a gzip stream that ends too early, gzip of text
    that is no line-delimited JSON, or gzip of JSON lines that
    [pd.read_json] turns into a frame. *)
Inductive body : Set :=
| NotGzip
| TruncatedGzip
| BadJson
| JsonLines (df : DataFrame).

Record s3 : Type := mk_s3 {
  list_objects_v2 : string -> string -> listing;
  get_object : string -> string -> option body
}.

Inductive call : Set :=
| ListObjectsV2 (bucket prefix : string)
| GetObject (bucket key : string).

(** Lines of [output.csv]. *)
Inductive line : Set :=
| Header (names : list string)
| Row (cells : list cell).

Inductive message : Set :=
| FailedToRead (key : string)
| FailedToParse (key : string)
| ProvideBucket
| ProvidePrefix
| EndMustBeGreater
| ProvideBoth.

(** What a run can change: the content of [output.csv], the lines printed,
    and the calls made to the object store. *)
Record world : Set := mk_world {
  output_csv : list line;
  stdout : list message;
  s3_calls : list call
}.

Definition print (m : message) (w : world) : world :=
  mk_world (output_csv w) (stdout w ++ [m]) (s3_calls w).

Definition record_call (c : call) (w : world) : world :=
  mk_world (output_csv w) (stdout w) (s3_calls w ++ [c]).

Definition set_output (f : list line) (w : world) : world :=
  mk_world f (stdout w) (s3_calls w).

(** ** KeyLister: [get_s3_keys] *)

(** The [for obj in resp['Contents']] loop. *)
Fixpoint scan_contents (objs : list string) (start_time : Z) (keys : list string)
  : result (list string) :=
  match objs with
  | [] => Return keys
  | key :: objs' =>
      t <- get_last_timestamp key ;;
      if t <? start_time then scan_contents objs' start_time keys
      else scan_contents objs' start_time (keys ++ [key])
  end.

(** [resp['Contents']] for the call answered by the head of the answers:
    the call itself may raise, and a page without the field raises
    [KeyError]. *)
Definition page_contents (answers : listing) : result (list string) :=
  match answers with
  | ListFails => Raise ClientError
  | LastPage None | MorePages None _ => Raise KeyError
  | LastPage (Some objs) | MorePages (Some objs) _ => Return objs
  end.

(** The [while True] loop, one call per turn. *)
Fixpoint list_loop (bucket prefix : string) (answers : listing) (start_time : Z)
    (keys : list string) (w : world) : result (list string) * world :=
  let w := record_call (ListObjectsV2 bucket prefix) w in
  match page_contents answers with
  | Raise e => (Raise e, w)
  | Return objs =>
      match scan_contents objs start_time keys with
      | Raise e => (Raise e, w)
      | Return keys' =>
          match answers with
          | MorePages _ more => list_loop bucket prefix more start_time keys' w
          | _ => (Return keys', w)
          end
      end
  end.

Definition get_s3_keys (store : s3) (bucket prefix : string) (start_time : Z)
    (w : world) : result (list string) * world :=
  list_loop bucket prefix (list_objects_v2 store bucket prefix) start_time [] w.

(** ** pandas operations used by the filter *)

Fixpoint index_of (name : string) (names : list string) : option nat :=
  match names with
  | [] => None
  | n :: names' =>
      if String.eqb n name then Some O
      else option_map S (index_of name names')
  end.

(** [df[name]]. *)
Definition getitem (df : DataFrame) (name : string) : result (list cell) :=
  match index_of name (columns df) with
  | None => Raise KeyError
  | Some i => Return (map (fun r => nth i r Null) (rows df))
  end.

(** [series.iloc[0]] and [series.iloc[-1]]. *)
Definition iloc_first (series : list cell) : result cell :=
  match series with
  | [] => Raise IndexError
  | c :: _ => Return c
  end.

Definition iloc_last (series : list cell) : result cell :=
  match series with
  | [] => Raise IndexError
  | _ => Return (last series Null)
  end.

(** A cell against a [pd.Timestamp]: [NaT] compares [False], a string
    cannot be compared. *)
Definition compare_time (op : Z -> Z -> bool) (c : cell) (t : Z) : result bool :=
  match c with
  | Time z => Return (op z t)
  | Null => Return false
  | Str _ => Raise TypeError
  end.

(** [series == s]. *)
Definition eq_str (s : string) (c : cell) : bool :=
  match c with
  | Str s' => String.eqb s' s
  | _ => false
  end.

(** [df[mask]]. *)
Definition select (df : DataFrame) (mask : list bool) : DataFrame :=
  mk_frame (columns df) (map fst (filter snd (combine (rows df) mask))).

(** [df.empty]. *)
Definition empty (df : DataFrame) : bool :=
  (Nat.eqb (List.length (columns df)) 0) || (Nat.eqb (List.length (rows df)) 0).

(** Seconds since the epoch as nanoseconds since the epoch. *)
Definition nanoseconds (t : Z) : Z := t * 1000000000.

(** The nanoseconds that a pandas [Timestamp] can hold (64 bits, the least
    value standing for [NaT]). *)
Definition representable (t : Z) : bool :=
  (- 9223372036854775807 <=? nanoseconds t)
  && (nanoseconds t <=? 9223372036854775807).

(** [pd.to_datetime(t, unit='s')]: outside the range of [Timestamp] it
    raises [OutOfBoundsDatetime], a [ValueError]. *)
Definition to_datetime (t : Z) : result Z :=
  if representable t then Return (nanoseconds t) else Raise ValueError.

(** ** Sink *)

(** [df.to_csv(f_output, header=..., index=False)]: the lines written. *)
Definition to_csv (df : DataFrame) (header : bool) : list line :=
  (if header then [Header (columns df)] else []) ++ map Row (rows df).

(** [f_output.tell() == 0]: every line holds at least its newline. *)
Definition tell_is_zero (f_output : list line) : bool :=
  match f_output with
  | [] => true
  | _ :: _ => false
  end.

(** Lines 76-77. *)
Definition append (df : DataFrame) (f_output : list line) : list line :=
  if negb (empty df) then f_output ++ to_csv df (tell_is_zero f_output)
  else f_output.

(** ** Pipeline: [retrieve_objects] *)

Definition wanted_type : string := "OrderTradeReportEvent".

(** How the body of the [try] leaves the loop turn. *)
Inductive flow : Set :=
| Next
| Break.

Definition fetch (store : s3) (bucket key : string) : result body :=
  match get_object store bucket key with
  | None => Raise ClientError
  | Some b => Return b
  end.

(** [gzip.open(BytesIO(...), 'rt').read()] followed by [pd.read_json]. *)
Definition read_frame (b : body) : result DataFrame :=
  match b with
  | NotGzip => Raise OSError
  | TruncatedGzip => Raise EOFError
  | BadJson => Raise ValueError
  | JsonLines df => Return df
  end.

(** Lines 66-77, on the parsed frame. *)
Definition filter_frame (df : DataFrame) (start_time end_time : Z)
    (f_output : list line) : result (flow * list line) :=
  ts <- getitem df "Timestamp" ;;
  last_ts <- iloc_last ts ;;
  before <- compare_time Z.ltb last_ts start_time ;;
  if before : bool then Return (Next, f_output)
  else
    ts <- getitem df "Timestamp" ;;
    first_ts <- iloc_first ts ;;
    after <- compare_time Z.gtb first_ts end_time ;;
    if after : bool then Return (Break, f_output)
    else
      ty <- getitem df "Type" ;;
      let df := select df (map (eq_str wanted_type) ty) in
      ts <- getitem df "Timestamp" ;;
      ge <- mapM (fun c => compare_time Z.geb c start_time) ts ;;
      ts <- getitem df "Timestamp" ;;
      le <- mapM (fun c => compare_time Z.leb c end_time) ts ;;
      let df := select df (map (fun p => andb (fst p) (snd p)) (combine ge le)) in
      Return (Next, append df f_output).

(** The body of the [try] for one key. *)
Definition try_body (store : s3) (bucket key : string) (start_time end_time : Z)
    (f_output : list line) : result (flow * list line) :=
  response <- fetch store bucket key ;;
  df <- read_frame response ;;
  filter_frame df start_time end_time f_output.

(** How the [for] loop ends. *)
Inductive loop_end : Set :=
| Exhausted
| Broke
| Propagated (e : exn).

(** One turn of the loop with its three handlers. The [KeyError] handler
    formats its message with the name [line], bound nowhere: evaluating it
    raises [NameError], which leaves the loop. *)
Definition turn (store : s3) (bucket key : string) (start_time end_time : Z)
    (w : world) : world * option loop_end :=
  let w := record_call (GetObject bucket key) w in
  match try_body store bucket key start_time end_time (output_csv w) with
  | Return (Next, f) => (set_output f w, None)
  | Return (Break, f) => (set_output f w, Some Broke)
  | Raise ClientError => (print (FailedToRead key) w, None)
  | Raise KeyError => (w, Some (Propagated NameError))
  | Raise ValueError => (print (FailedToParse key) w, None)
  | Raise e => (w, Some (Propagated e))
  end.

Fixpoint drain (store : s3) (bucket : string) (keys : list string)
    (start_time end_time : Z) (w : world) : world * loop_end :=
  match keys with
  | [] => (w, Exhausted)
  | key :: keys' =>
      match turn store bucket key start_time end_time w with
      | (w', Some e) => (w', e)
      | (w', None) => drain store bucket keys' start_time end_time w'
      end
  end.

(** Lines 52-53: both bounds of the window as timestamps. *)
Definition convert_window (start_time end_time : Z) : result (Z * Z) :=
  start <- to_datetime start_time ;;
  stop <- to_datetime end_time ;;
  Return (start, stop).

(** [retrieve_objects]: the run ends normally ([None]) or with the
    exception that escapes. The window is converted before [output.csv] is
    opened: when a bound cannot be converted, nothing has been touched. *)
Definition retrieve_objects (store : s3) (bucket : string) (keys : list string)
    (start_time end_time : Z) (w : world) : world * option exn :=
  match convert_window start_time end_time with
  | Raise e => (w, Some e)
  | Return (start_time, end_time) =>
      let w := set_output [] w in
      match drain store bucket keys start_time end_time w with
      | (w', Propagated e) => (w', Some e)
      | (w', _) => (w', None)
      end
  end.

(** ** [main] *)

Record args : Set := mk_args {
  arg_start_time : option Z;
  arg_end_time : option Z;
  arg_bucket : option string;
  arg_prefix : option string
}.

(** Truth value of an optional [str] and of an optional [int]. *)
Definition truthy_str (o : option string) : bool :=
  match o with
  | Some s => negb (String.eqb s "")
  | None => false
  end.

Definition truthy_int (o : option Z) : bool :=
  match o with
  | Some z => negb (z =? 0)
  | None => false
  end.

Definition main (store : s3) (a : args) (w : world) : world * option exn :=
  if negb (truthy_str (arg_bucket a)) then (print ProvideBucket w, None)
  else if negb (truthy_str (arg_prefix a)) then (print ProvidePrefix w, None)
  else
    match arg_bucket a, arg_prefix a, arg_start_time a, arg_end_time a with
    | Some bucket, Some prefix, Some start_time, Some end_time =>
        if truthy_int (Some start_time) && truthy_int (Some end_time) then
          if start_time >=? end_time then (print EndMustBeGreater w, None)
          else
            match get_s3_keys store bucket prefix start_time w with
            | (Raise e, w') => (w', Some e)
            | (Return keys, w') =>
                retrieve_objects store bucket keys start_time end_time w'
            end
        else (print ProvideBoth w, None)
    | _, _, _, _ => (print ProvideBoth w, None)
    end.

(** ** The naming convention and the calendar, as the specification words them *)

Fixpoint contains (c : ascii) (s : string) : bool :=
  match s with
  | EmptyString => false
  | String c' s' => Ascii.eqb c' c || contains c s'
  end.

Definition digit_char (d : Z) : ascii := ascii_of_nat (48 + Z.to_nat d).

(** Zero-padded decimal fields of width two and four. *)
Definition pad2 (n : Z) : string :=
  String (digit_char (n / 10)) (String (digit_char (n mod 10)) EmptyString).

Definition pad4 (n : Z) : string := pad2 (n / 100) ++ pad2 (n mod 100).

Definition date_token (y mo d : Z) : string :=
  pad4 y ++ "-" ++ pad2 mo ++ "-" ++ pad2 d.

Definition time_token (h mi s : Z) : string :=
  pad2 h ++ "-" ++ pad2 mi ++ "-" ++ pad2 s.

(** [<YYYY-MM-DD>_<HH-MM-SS>_<discriminator>.<ext1>.<ext2>]. *)
Definition conventional_name (y mo d h mi s : Z) (disc ext1 ext2 : string) : string :=
  (date_token y mo d ++ "_" ++ time_token h mi s ++ "_" ++ disc)
  ++ "." ++ ext1 ++ "." ++ ext2.

(** A field prints as digits that read back as its value and holds none of
    the separators of the convention. *)
Definition field_ok (pad : Z -> string) (n : Z) : bool :=
  match py_int (pad n) with
  | Some m => m =? n
  | None => false
  end
  && negb (contains "-" (pad n)) && negb (contains "_" (pad n))
  && negb (contains "/" (pad n)).

(** The proleptic Gregorian calendar by counting: the days of the years and
    of the months that lie before a date. *)
Definition leap_year (y : Z) : bool :=
  if y mod 400 =? 0 then true
  else if y mod 100 =? 0 then false
  else y mod 4 =? 0.

Definition year_length (y : Z) : Z := if leap_year y then 366 else 365.

Definition month_length (y : Z) (m : nat) : Z :=
  match m with
  | 1%nat | 3%nat | 5%nat | 7%nat | 8%nat | 10%nat | 12%nat => 31
  | 4%nat | 6%nat | 9%nat | 11%nat => 30
  | 2%nat => if leap_year y then 29 else 28
  | _ => 0
  end.

(** Days in the years [1 .. n]. *)
Fixpoint days_of_years (n : nat) : Z :=
  match n with
  | O => 0
  | S k => days_of_years k + year_length (Z.of_nat (S k))
  end.

(** Days in the months [1 .. n] of year [y]. *)
Fixpoint days_of_months (y : Z) (n : nat) : Z :=
  match n with
  | O => 0
  | S k => days_of_months y k + month_length y (S k)
  end.

(** Day number of a date, 0001-01-01 being day 1. *)
Definition day_number (y mo d : Z) : Z :=
  days_of_years (Z.to_nat (y - 1)) + days_of_months y (Z.to_nat (mo - 1)) + d.

(** Seconds from 1970-01-01T00:00:00Z to the given UTC date and time. *)
Definition utc_epoch_seconds (y mo d h mi s : Z) : Z :=
  (day_number y mo d - day_number 1970 1 1) * 86400 + h * 3600 + mi * 60 + s.

Definition valid_date (y mo d : Z) : Prop :=
  1 <= y <= 9999 /\ 1 <= mo <= 12 /\ 1 <= d <= month_length y (Z.to_nat mo).

Definition valid_time (h mi s : Z) : Prop :=
  0 <= h <= 23 /\ 0 <= mi <= 59 /\ 0 <= s <= 59.

(** ** Listings *)

Definition contents_keys (contents : option (list string)) : list string :=
  match contents with
  | Some objs => objs
  | None => []
  end.

(** Every key of a listing, page after page. *)
Fixpoint listed_keys (answers : listing) : list string :=
  match answers with
  | ListFails => []
  | LastPage contents => contents_keys contents
  | MorePages contents next => (contents_keys contents ++ listed_keys next)%list
  end.

Definition has_contents (contents : option (list string)) : bool :=
  match contents with
  | Some _ => true
  | None => false
  end.

(** Every call is answered, and every page carries ['Contents']. *)
Fixpoint every_page_lists (answers : listing) : bool :=
  match answers with
  | ListFails => false
  | LastPage contents => has_contents contents
  | MorePages contents next => has_contents contents && every_page_lists next
  end.

(** Pages with contents, followed by the answers [rest]. *)
Fixpoint after_pages (pages : list (list string)) (rest : listing) : listing :=
  match pages with
  | [] => rest
  | objs :: pages' => MorePages (Some objs) (after_pages pages' rest)
  end.

(** The head of the answers is a page without ['Contents']. *)
Definition lacks_contents (answers : listing) : bool :=
  match answers with
  | LastPage None | MorePages None _ => true
  | _ => false
  end.

Definition decodable (key : string) : Prop :=
  exists t, get_last_timestamp key = Return t.

(** The decoded end-time of the key is [>= windowStart]. *)
Definition ends_in_window (start_time : Z) (key : string) : bool :=
  match get_last_timestamp key with
  | Return t => start_time <=? t
  | Raise _ => false
  end.

(** The naming convention in the words of the specification: the stem
    splits into exactly three underscore tokens, and the date and the time
    token each into three integers. *)
Definition integer_triple (s : string) : bool :=
  match map py_int (split "-" s) with
  | [Some _; Some _; Some _] => true
  | _ => false
  end.

Definition matches_convention (key : string) : bool :=
  match split "_" (stem key) with
  | [date; time; _] => integer_triple date && integer_triple time
  | _ => false
  end.

(** ** The output table, as the specification words it *)

Definition is_header (l : line) : bool :=
  match l with
  | Header _ => true
  | Row _ => false
  end.

Definition count_headers (f : list line) : nat :=
  List.length (filter is_header f).

(** The table that header-once appends of the given non-empty batches
    build: the column names of the first batch, then the rows of every
    batch in order. *)
Definition table_of (batches : list DataFrame) : list line :=
  match batches with
  | [] => []
  | b :: _ => Header (columns b) :: flat_map (fun b => map Row (rows b)) batches
  end.

(** The cell of a row under the column [name] of its frame. *)
Definition cell_of (df : DataFrame) (name : string) (r : list cell) : option cell :=
  option_map (fun i => nth i r Null) (index_of name (columns df)).

(** The [Timestamp] of the first record of a frame, when it is a time. *)
Definition first_record_time (df : DataFrame) : option Z :=
  match getitem df "Timestamp" with
  | Return (Time t :: _) => Some t
  | _ => None
  end.

(** The last record of a frame lies before [start_time]. *)
Definition last_record_before (df : DataFrame) (start_time : Z) : bool :=
  match getitem df "Timestamp" with
  | Return ts =>
      match last ts Null with
      | Time t => t <? start_time
      | _ => false
      end
  | Raise _ => false
  end.

(** ** A small archive *)

(** 2024-01-01T00:00:00Z. *)
Definition midnight : Z := 1704067200.

Definition at_second (s : Z) : cell := Time (nanoseconds (midnight + s)).

Definition event (s : Z) (type price : string) : list cell :=
  [at_second s; Str type; Str price].

Definition event_columns : list string := ["Timestamp"; "Type"; "Price"].

Definition key_old : string := "ember/trades/2023-12-31_23-00-00_z.json.gz".
Definition key_a : string := "ember/trades/2024-01-01_00-00-00_a.json.gz".
Definition key_b : string := "ember/trades/2024-01-01_00-10-00_b.json.gz".
Definition key_c : string := "ember/trades/2024-01-01_00-20-00_c.json.gz".
Definition key_late : string := "ember/trades/2024-01-01_00-30-00_d.json.gz".
Definition key_unsorted : string := "ember/trades/2024-01-01_00-06-00_u.json.gz".
Definition key_no_timestamp : string := "ember/trades/2024-01-01_00-07-00_n.json.gz".
Definition key_not_gzip : string := "ember/trades/2024-01-01_00-08-00_g.json.gz".
Definition key_truncated : string := "ember/trades/2024-01-01_00-08-30_t.json.gz".
Definition key_bad_json : string := "ember/trades/2024-01-01_00-09-00_j.json.gz".
Definition key_denied : string := "ember/trades/2024-01-01_00-09-30_x.json.gz".
Definition key_readme : string := "ember/mixed/README.txt".

(** Records from 00:00 to 00:05, one trade at 00:02. *)
Definition frame_a : DataFrame :=
  mk_frame event_columns
    [event 0 "OrderNewRequest" "100.0";
     event 120 "OrderTradeReportEvent" "100.5";
     event 300 "OrderCancelRequest" "100.0"].

(** Records from 00:08 to 00:12, no trade. *)
Definition frame_b : DataFrame :=
  mk_frame event_columns
    [event 480 "OrderNewRequest" "101.0";
     event 720 "OrderCancelRequest" "101.0"].

(** Records from 00:13 to 00:19, two trades. *)
Definition frame_c : DataFrame :=
  mk_frame event_columns
    [event 780 "OrderTradeReportEvent" "102.0";
     event 1140 "OrderTradeReportEvent" "102.5"].

(** Records from 00:25 on. *)
Definition frame_late : DataFrame :=
  mk_frame event_columns
    [event 1500 "OrderTradeReportEvent" "103.0";
     event 1560 "OrderTradeReportEvent" "103.5"].

(** Records out of order: the first at 00:40, the last on the day before. *)
Definition frame_unsorted : DataFrame :=
  mk_frame event_columns
    [event 2400 "OrderTradeReportEvent" "104.0";
     event (-60) "OrderTradeReportEvent" "99.0"].

(** Records that carry no [Timestamp] field. *)
Definition frame_no_timestamp : DataFrame :=
  mk_frame ["Type"; "Price"] [[Str "OrderTradeReportEvent"; Str "100.0"]].

Fixpoint lookup {A : Type} (key : string) (l : list (string * A)) : option A :=
  match l with
  | [] => None
  | (k, a) :: l' => if String.eqb k key then Some a else lookup key l'
  end.

Definition archive_objects : list (string * body) :=
  [(key_a, JsonLines frame_a); (key_b, JsonLines frame_b);
   (key_c, JsonLines frame_c); (key_late, JsonLines frame_late);
   (key_unsorted, JsonLines frame_unsorted);
   (key_no_timestamp, JsonLines frame_no_timestamp);
   (key_not_gzip, NotGzip); (key_truncated, TruncatedGzip);
   (key_bad_json, BadJson)].

Definition archive_listings : list (string * listing) :=
  [("ember/trades/",
    MorePages (Some [key_old; key_a]) (LastPage (Some [key_b; key_c; key_late])));
   ("ember/mixed/", LastPage (Some [key_readme; key_a]))].

(** The bucket ["archive"]: a prefix under which nothing is stored is
    answered by a page without ['Contents']. *)
Definition archive : s3 :=
  mk_s3
    (fun bucket prefix =>
       if String.eqb bucket "archive" then
         match lookup prefix archive_listings with
         | Some answers => answers
         | None => LastPage None
         end
       else ListFails)
    (fun bucket key =>
       if String.eqb bucket "archive" then lookup key archive_objects else None).

Definition fresh : world := mk_world [] [] [].

(** A world in which [output.csv] holds the table of an earlier run. *)
Definition stale : world :=
  mk_world [Header event_columns; Row (event 60 "OrderTradeReportEvent" "1.0")] [] [].

Definition run_args (start_time end_time : Z) (prefix : string) : args :=
  mk_args (Some start_time) (Some end_time) (Some "archive") (Some prefix).

(** A row of the frame [df] that the filter keeps: its [Timestamp] lies in
    the closed window and its [Type] is the wanted one. *)
Definition kept_row (df : DataFrame) (start_time end_time : Z) (r : list cell) : Prop :=
  In r (rows df)
  /\ (exists t, cell_of df "Timestamp" r = Some (Time t)
                /\ start_time <= t <= end_time)
  /\ cell_of df "Type" r = Some (Str wanted_type).

(** A batch taken from the object stored under [key]: the columns of its
    frame, and rows of it that the filter keeps. *)
Definition batch_of (store : s3) (bucket key : string) (start_time end_time : Z)
    (b : DataFrame) : Prop :=
  exists df,
    get_object store bucket key = Some (JsonLines df)
    /\ columns b = columns df
    /\ Forall (kept_row df start_time end_time) (rows b).

(** The times that a series holds, in order. *)
Fixpoint times (series : list cell) : list Z :=
  match series with
  | [] => []
  | Time t :: series' => t :: times series'
  | _ :: series' => times series'
  end.

Fixpoint nondecreasing (l : list Z) : bool :=
  match l with
  | [] => true
  | a :: l' =>
      match l' with
      | [] => true
      | b :: _ => (a <=? b) && nondecreasing l'
      end
  end.

(** The records of a frame are non-decreasing in [Timestamp]. *)
Definition records_ordered (df : DataFrame) : bool :=
  match getitem df "Timestamp" with
  | Return ts => nondecreasing (times ts)
  | Raise _ => true
  end.

Definition same_output (w w' : world) : Prop := output_csv w = output_csv w'.

(** ** Proof steps *)

(** Linear arithmetic with division and remainder by constants. *)
Ltac euclid := Z.to_euclidean_division_equations; lia.

(** A [bind] that returns: its first computation returned too. *)
Tactic Notation "bind_inv" hyp(H) "as" ident(x) ident(E) :=
  match type of H with
  | bind ?r _ = Return _ =>
      destruct r as [x|] eqn:E; cbn [bind] in H; [|discriminate H]
  end.


(** ** Further notions used by the properties of the code *)

(** One date and time lies before another, field by field. *)
Definition earlier (a b : datetime_t) : Prop :=
  dt_year a < dt_year b
  \/ (dt_year a = dt_year b
      /\ (dt_month a < dt_month b
          \/ (dt_month a = dt_month b
              /\ (dt_day a < dt_day b
                  \/ (dt_day a = dt_day b
                      /\ (dt_hour a < dt_hour b
                          \/ (dt_hour a = dt_hour b
                              /\ (dt_minute a < dt_minute b
                                  \/ (dt_minute a = dt_minute b
                                      /\ dt_second a < dt_second b))))))))).

(** Number of [list_objects_v2] answers in a listing. *)
Fixpoint page_count (answers : listing) : nat :=
  match answers with
  | ListFails | LastPage _ => 1
  | MorePages _ next => S (page_count next)
  end.

(** The head of the answers is a call that raises. *)
Definition call_fails (answers : listing) : bool :=
  match answers with
  | ListFails => true
  | _ => false
  end.

(** A cell holds a time within the closed window. *)
Definition time_within (start_time end_time : Z) (c : cell) : bool :=
  match c with
  | Time t => (start_time <=? t) && (t <=? end_time)
  | _ => false
  end.

(** The record is of the wanted type and its time lies within the window. *)
Definition keep_row (df : DataFrame) (start_time end_time : Z) (r : list cell) : bool :=
  match index_of "Type" (columns df), index_of "Timestamp" (columns df) with
  | Some iy, Some it =>
      eq_str wanted_type (nth iy r Null)
      && time_within start_time end_time (nth it r Null)
  | _, _ => false
  end.

(** [main] gets past its argument checks. *)
Definition runnable (a : args) : bool :=
  truthy_str (arg_bucket a) && truthy_str (arg_prefix a)
  && truthy_int (arg_start_time a) && truthy_int (arg_end_time a)
  && match arg_start_time a, arg_end_time a with
     | Some start_time, Some end_time => start_time <? end_time
     | _, _ => false
     end.

(** What the handlers of [retrieve_objects] print about a key. *)
Definition reports (store : s3) (bucket : string) (keys : list string)
    (m : message) : Prop :=
  exists key,
    In key keys
    /\ ((m = FailedToRead key /\ get_object store bucket key = None)
        \/ (m = FailedToParse key /\ get_object store bucket key = Some BadJson)).

(** * Properties *)

(** ** Strings *)

Lemma split_not_nil (sep : ascii) (s : string) : split sep s <> [].
Proof.
  destruct s as [|c s]; simpl; [discriminate|].
  destruct (Ascii.eqb c sep); [discriminate|].
  destruct (split sep s); discriminate.
Qed.

Lemma split_app_sep (sep : ascii) (a b : string) :
  split sep (a ++ String sep b) = (split sep a ++ split sep b)%list.
Proof.
  induction a as [|c a IH]; simpl.
  - now rewrite Ascii.eqb_refl.
  - destruct (Ascii.eqb c sep); [now rewrite IH|].
    rewrite IH. destruct (split sep a) eqn:E; [|reflexivity].
    now apply split_not_nil in E.
Qed.

Lemma split_without (sep : ascii) (s : string) :
  contains sep s = false -> split sep s = [s].
Proof.
  induction s as [|c s IH]; simpl; [reflexivity|].
  intros H. apply orb_false_iff in H as [Hc Hs].
  rewrite Hc, (IH Hs). reflexivity.
Qed.

Lemma join_split (sep : ascii) (s : string) : join sep (split sep s) = s.
Proof.
  induction s as [|c s IH]; simpl; [reflexivity|].
  destruct (Ascii.eqb_spec c sep) as [->|_].
  - generalize (split_not_nil sep s). destruct (split sep s) as [|t ts]; [congruence|].
    intros _. simpl in *. now rewrite IH.
  - generalize (split_not_nil sep s). destruct (split sep s) as [|t ts]; [congruence|].
    intros _. destruct ts as [|u us]; simpl in *; now rewrite <- IH.
Qed.

Lemma contains_app (c : ascii) (a b : string) :
  contains c (a ++ b) = contains c a || contains c b.
Proof.
  induction a as [|x a IH]; simpl; [reflexivity|].
  now rewrite IH, orb_assoc.
Qed.

Lemma last_app_singleton {A : Type} (l : list A) (x d : A) :
  last (l ++ [x])%list d = x.
Proof.
  induction l as [|y l IH]; [reflexivity|].
  simpl. destruct (l ++ [x])%list eqn:E; [now destruct l|exact IH].
Qed.

Lemma basename_plain (name : string) :
  contains "/" name = false -> basename name = name.
Proof.
  intros H. unfold basename. now rewrite (split_without _ _ H).
Qed.

Lemma basename_under (dir name : string) :
  contains "/" name = false -> basename (dir ++ String "/" name) = name.
Proof.
  intros H. unfold basename.
  rewrite split_app_sep, (split_without _ _ H). apply last_app_singleton.
Qed.

Lemma stem_of_name (st ext1 ext2 : string) :
  contains "." ext1 = false -> contains "." ext2 = false ->
  hd EmptyString (rsplit "." 2 (st ++ "." ++ ext1 ++ "." ++ ext2)) = st.
Proof.
  intros H1 H2. unfold rsplit, hd.
  change (st ++ "." ++ ext1 ++ "." ++ ext2)
    with (st ++ String "." (ext1 ++ String "." ext2)).
  rewrite !split_app_sep, (split_without _ _ H1), (split_without _ _ H2).
  pose proof (split_not_nil "." st) as Hn.
  rewrite length_app. simpl List.length.
  replace (S (List.length (split "." st) + 2 - 1 - 2))%nat
    with (List.length (split "." st) + 0)%nat
    by (destruct (split "." st); [congruence | simpl; lia]).
  rewrite firstn_app_2. simpl firstn. rewrite app_nil_r. apply join_split.
Qed.

(** ** Zero-padded fields *)

Lemma forallb_below (P : Z -> bool) (n : nat) :
  forallb P (map Z.of_nat (seq 0 n)) = true ->
  forall z, 0 <= z < Z.of_nat n -> P z = true.
Proof.
  intros H z Hz. rewrite forallb_forall in H. apply H.
  rewrite <- (Z2Nat.id z) by lia. apply in_map, in_seq. lia.
Qed.

Lemma pad2_ok (n : Z) : 0 <= n < 100 -> field_ok pad2 n = true.
Proof.
  apply (forallb_below (field_ok pad2) (Z.to_nat 100)). vm_compute. reflexivity.
Qed.

Lemma pad4_ok (n : Z) : 0 <= n < 10000 -> field_ok pad4 n = true.
Proof.
  apply (forallb_below (field_ok pad4) (Z.to_nat 10000)). vm_compute. reflexivity.
Qed.

Lemma field_ok_inv (pad : Z -> string) (n : Z) :
  field_ok pad n = true ->
  py_int (pad n) = Some n /\ contains "-" (pad n) = false
  /\ contains "_" (pad n) = false /\ contains "/" (pad n) = false.
Proof.
  unfold field_ok. rewrite !andb_true_iff, !negb_true_iff.
  intros [[[Hi H1] H2] H3]. repeat split; trivial.
  destruct (py_int (pad n)) as [m|]; [|discriminate].
  apply Z.eqb_eq in Hi. now subst.
Qed.

Lemma three_ints_fields (pa pb pc : Z -> string) (a b c : Z) :
  field_ok pa a = true -> field_ok pb b = true -> field_ok pc c = true ->
  three_ints (pa a ++ "-" ++ pb b ++ "-" ++ pc c) = Return (a, b, c).
Proof.
  intros Ha Hb Hc.
  apply field_ok_inv in Ha as (Ia & Da & _ & _).
  apply field_ok_inv in Hb as (Ib & Db & _ & _).
  apply field_ok_inv in Hc as (Ic & Dc & _ & _).
  unfold three_ints.
  change (pa a ++ "-" ++ pb b ++ "-" ++ pc c)
    with (pa a ++ String "-" (pb b ++ String "-" (pc c))).
  rewrite !split_app_sep, !split_without by assumption.
  simpl. now rewrite Ia, Ib, Ic.
Qed.

Lemma fields_without (sep : ascii) (pa pb pc : Z -> string) (a b c : Z) :
  sep <> "-"%char ->
  contains sep (pa a) = false -> contains sep (pb b) = false ->
  contains sep (pc c) = false ->
  contains sep (pa a ++ "-" ++ pb b ++ "-" ++ pc c) = false.
Proof.
  intros Hs Ha Hb Hc.
  change (pa a ++ "-" ++ pb b ++ "-" ++ pc c)
    with (pa a ++ String "-" (pb b ++ String "-" (pc c))).
  repeat (rewrite contains_app; cbn [contains]). rewrite Ha, Hb, Hc.
  destruct (Ascii.eqb_spec "-"%char sep); [congruence|reflexivity].
Qed.

(** ** The calendar *)

Lemma _is_leap_leap_year (y : Z) : _is_leap y = leap_year y.
Proof.
  unfold _is_leap, leap_year.
  destruct (Z.eqb_spec (y mod 400) 0), (Z.eqb_spec (y mod 100) 0),
    (Z.eqb_spec (y mod 4) 0); simpl; trivial; exfalso; euclid.
Qed.

Lemma twelve_months (mo : Z) (P : Z -> Prop) :
  1 <= mo <= 12 ->
  P 1 -> P 2 -> P 3 -> P 4 -> P 5 -> P 6 -> P 7 -> P 8 -> P 9 -> P 10 ->
  P 11 -> P 12 -> P mo.
Proof.
  intros H. assert (mo = 1 \/ mo = 2 \/ mo = 3 \/ mo = 4 \/ mo = 5 \/ mo = 6
    \/ mo = 7 \/ mo = 8 \/ mo = 9 \/ mo = 10 \/ mo = 11 \/ mo = 12) by lia.
  intuition (subst; assumption).
Qed.

Lemma _days_in_month_length (y mo : Z) :
  1 <= mo <= 12 -> _days_in_month y mo = month_length y (Z.to_nat mo).
Proof.
  intros H. unfold _days_in_month. rewrite _is_leap_leap_year.
  pattern mo. apply (twelve_months mo); trivial; simpl;
    destruct (leap_year y); reflexivity.
Qed.

Lemma _days_before_month_count (y mo : Z) :
  1 <= mo <= 12 ->
  _days_before_month y mo = days_of_months y (Z.to_nat (mo - 1)).
Proof.
  intros H. unfold _days_before_month. rewrite _is_leap_leap_year.
  pattern mo. apply (twelve_months mo); trivial; simpl;
    destruct (leap_year y); reflexivity.
Qed.

Lemma days_of_years_closed (n : nat) :
  days_of_years n =
  Z.of_nat n * 365 + Z.of_nat n / 4 - Z.of_nat n / 100 + Z.of_nat n / 400.
Proof.
  induction n as [|k IH]; [reflexivity|].
  cbn [days_of_years]. rewrite IH. unfold year_length, leap_year.
  rewrite Nat2Z.inj_succ. generalize (Z.of_nat k) (Nat2Z.is_nonneg k).
  intros z Hz.
  destruct (Z.eqb_spec (Z.succ z mod 400) 0), (Z.eqb_spec (Z.succ z mod 100) 0),
    (Z.eqb_spec (Z.succ z mod 4) 0); euclid.
Qed.

Lemma _days_before_year_count (y : Z) :
  1 <= y -> _days_before_year y = days_of_years (Z.to_nat (y - 1)).
Proof.
  intros H. rewrite days_of_years_closed, Z2Nat.id by lia. reflexivity.
Qed.

Lemma _ymd2ord_day_number (y mo d : Z) :
  1 <= y -> 1 <= mo <= 12 -> _ymd2ord y mo d = day_number y mo d.
Proof.
  intros Hy Hm. unfold _ymd2ord, day_number.
  now rewrite _days_before_year_count, _days_before_month_count.
Qed.

Lemma epoch_day_number : day_number 1970 1 1 = _ymd2ord 1970 1 1.
Proof. symmetry. apply _ymd2ord_day_number; lia. Qed.

Lemma datetime_valid (y mo d h mi s : Z) :
  valid_date y mo d -> valid_time h mi s ->
  datetime y mo d h mi s = Return (mk_datetime y mo d h mi s).
Proof.
  intros (Hy & Hm & Hd) (Hh & Hmi & Hs). unfold datetime.
  assert (Hlen : month_length y (Z.to_nat mo) <= 31).
  { pattern mo. apply (twelve_months mo); trivial; simpl;
      destruct (leap_year y); lia. }
  assert (Hfit : forallb fits_c_int [y; mo; d; h; mi; s] = true).
  { unfold fits_c_int. simpl. rewrite !andb_true_iff, !Z.leb_le. lia. }
  rewrite Hfit. simpl negb. cbv iota.
  rewrite _days_in_month_length by assumption.
  assert (Hrange : between 1 y 9999 && between 1 mo 12
      && between 1 d (month_length y (Z.to_nat mo))
      && between 0 h 23 && between 0 mi 59 && between 0 s 59 = true).
  { unfold between. rewrite !andb_true_iff, !Z.leb_le. lia. }
  now rewrite Hrange.
Qed.

(** ** KeyClock *)

Lemma append_assoc (a b c : string) : (a ++ b) ++ c = a ++ b ++ c.
Proof. induction a as [|x a IH]; simpl; [reflexivity | now rewrite IH]. Qed.

Lemma month_length_le_31 (y : Z) (m : nat) : month_length y m <= 31.
Proof.
  do 13 (destruct m as [|m]; [simpl; try destruct (leap_year y); lia|]).
  simpl. lia.
Qed.

Lemma date_token_fields (y mo d : Z) :
  valid_date y mo d ->
  field_ok pad4 y = true /\ field_ok pad2 mo = true /\ field_ok pad2 d = true.
Proof.
  intros (Hy & Hm & Hd). pose proof (month_length_le_31 y (Z.to_nat mo)).
  repeat split; [apply pad4_ok | apply pad2_ok | apply pad2_ok]; lia.
Qed.

Lemma time_token_fields (h mi s : Z) :
  valid_time h mi s ->
  field_ok pad2 h = true /\ field_ok pad2 mi = true /\ field_ok pad2 s = true.
Proof. intros (Hh & Hm & Hs). repeat split; apply pad2_ok; lia. Qed.

Lemma tokens_without (sep : ascii) (y mo d h mi s : Z) :
  sep = "_"%char \/ sep = "/"%char ->
  valid_date y mo d -> valid_time h mi s ->
  contains sep (date_token y mo d) = false
  /\ contains sep (time_token h mi s) = false.
Proof.
  intros Hsep Hd Ht.
  apply date_token_fields in Hd as (Fy & Fmo & Fd).
  apply time_token_fields in Ht as (Fh & Fmi & Fs).
  apply field_ok_inv in Fy as (_ & _ & Uy & Sy), Fmo as (_ & _ & Umo & Smo),
    Fd as (_ & _ & Ud & Sd), Fh as (_ & _ & Uh & Sh),
    Fmi as (_ & _ & Umi & Smi), Fs as (_ & _ & Us & Ss).
  destruct Hsep as [-> | ->]; split; apply fields_without;
    trivial; discriminate.
Qed.

Lemma stem_conventional (path disc ext1 ext2 : string) (y mo d h mi s : Z) :
  valid_date y mo d -> valid_time h mi s ->
  path = "" \/ (exists dir, path = dir ++ "/") ->
  contains "/" disc = false ->
  contains "." ext1 = false -> contains "/" ext1 = false ->
  contains "." ext2 = false -> contains "/" ext2 = false ->
  stem (path ++ conventional_name y mo d h mi s disc ext1 ext2)
  = date_token y mo d ++ "_" ++ time_token h mi s ++ "_" ++ disc.
Proof.
  intros Hd Ht Hpath Sdisc D1 S1 D2 S2.
  destruct (tokens_without "/" y mo d h mi s) as [Sdate Stime]; auto.
  assert (Hname : contains "/" (conventional_name y mo d h mi s disc ext1 ext2) = false).
  { unfold conventional_name.
    repeat (rewrite contains_app; cbn [contains]).
    now rewrite Sdate, Stime, Sdisc, S1, S2. }
  assert (Hbase : basename (path ++ conventional_name y mo d h mi s disc ext1 ext2)
                  = conventional_name y mo d h mi s disc ext1 ext2).
  { destruct Hpath as [-> | [dir ->]].
    - now apply basename_plain.
    - rewrite append_assoc. now apply basename_under. }
  unfold stem. rewrite Hbase. unfold conventional_name.
  now apply stem_of_name.
Qed.

(** C5. For every key whose basename follows the convention
    [<YYYY-MM-DD>_<HH-MM-SS>_<discriminator>.<ext1>.<ext2>] (a calendar date
    of the years 1 to 9999 and a time of day, zero-padded; a discriminator
    without underscore; two extensions), whatever the prefix path it lies
    under and whatever the extensions, [get_last_timestamp] returns the
    number of seconds from 1970-01-01T00:00:00Z to that UTC date and time,
    counted on the calendar. *)
Theorem get_last_timestamp_exact (path disc ext1 ext2 : string) (y mo d h mi s : Z) :
  valid_date y mo d -> valid_time h mi s ->
  path = "" \/ (exists dir, path = dir ++ "/") ->
  contains "_" disc = false -> contains "/" disc = false ->
  contains "." ext1 = false -> contains "/" ext1 = false ->
  contains "." ext2 = false -> contains "/" ext2 = false ->
  get_last_timestamp (path ++ conventional_name y mo d h mi s disc ext1 ext2)
  = Return (utc_epoch_seconds y mo d h mi s).
Proof.
  intros Hd Ht Hpath Udisc Sdisc D1 S1 D2 S2.
  unfold get_last_timestamp. rewrite stem_conventional by assumption.
  destruct (tokens_without "_" y mo d h mi s) as [Udate Utime]; auto.
  change (date_token y mo d ++ "_" ++ time_token h mi s ++ "_" ++ disc)
    with (date_token y mo d ++ String "_" (time_token h mi s ++ String "_" disc)).
  rewrite !split_app_sep, !split_without by assumption.
  cbn [app].
  destruct (date_token_fields y mo d Hd) as (Fy & Fmo & Fd).
  destruct (time_token_fields h mi s Ht) as (Fh & Fmi & Fs).
  unfold date_token, time_token.
  rewrite !three_ints_fields by assumption.
  cbn [bind]. rewrite datetime_valid by assumption. cbn [bind].
  unfold utc_timestamp, utc_epoch_seconds. cbn [dt_year dt_month dt_day dt_hour dt_minute dt_second].
  destruct Hd as (Hy & Hm & _).
  rewrite epoch_day_number, _ymd2ord_day_number by lia.
  f_equal. lia.
Qed.

Lemma get_last_timestamp_exact_witness :
  get_last_timestamp "ember/trades/2024-02-29_23-59-58_7a.json.gz"
  = Return (utc_epoch_seconds 2024 2 29 23 59 58).
Proof.
  apply (get_last_timestamp_exact "ember/trades/" "7a" "json" "gz" 2024 2 29 23 59 58);
    try reflexivity.
  - unfold valid_date. simpl. lia.
  - unfold valid_time. lia.
  - right. exists "ember/trades". reflexivity.
Defined.

Example get_last_timestamp_leap_day :
  get_last_timestamp "ember/trades/2024-02-29_23-59-58_7a.json.gz"
  = Return 1709251198.
Proof. vm_compute. reflexivity. Qed.

(** ** KeyLister *)

Lemma scan_contents_decodable (start_time : Z) (objs keys : list string) :
  Forall decodable objs ->
  scan_contents objs start_time keys
  = Return (keys ++ filter (ends_in_window start_time) objs)%list.
Proof.
  intros H. revert keys. induction H as [|key objs [t Ht] _ IH]; intros keys.
  - simpl. now rewrite app_nil_r.
  - cbn [scan_contents filter]. unfold ends_in_window at 1.
    rewrite Ht. cbn [bind]. rewrite IH, IH.
    destruct (Z.ltb_spec t start_time), (Z.leb_spec start_time t); try lia.
    + reflexivity.
    + now rewrite <- app_assoc.
Qed.

Lemma scan_contents_undecodable (start_time : Z) (objs keys : list string)
    (key : string) (e : exn) :
  In key objs -> get_last_timestamp key = Raise e ->
  exists e', scan_contents objs start_time keys = Raise e'.
Proof.
  intros Hin Hkey. revert keys.
  induction objs as [|k objs IH]; intros keys; [contradiction|].
  cbn [scan_contents]. destruct (get_last_timestamp k) as [t|e0] eqn:Hk.
  - cbn [bind]. destruct Hin as [-> | Hin]; [congruence|].
    destruct (t <? start_time); now apply IH.
  - now exists e0.
Qed.

Lemma list_loop_lists (bucket prefix : string) (start_time : Z) (answers : listing) :
  every_page_lists answers = true ->
  Forall decodable (listed_keys answers) ->
  forall keys w,
    fst (list_loop bucket prefix answers start_time keys w)
    = Return (keys ++ filter (ends_in_window start_time) (listed_keys answers))%list.
Proof.
  induction answers as [|contents|contents next IH]; intros Hp Hd keys w.
  - discriminate.
  - destruct contents as [objs|]; [|discriminate].
    simpl in Hd. cbn [list_loop page_contents].
    now rewrite (scan_contents_decodable _ _ _ Hd).
  - destruct contents as [objs|]; [|discriminate].
    simpl in Hp, Hd. apply Forall_app in Hd as [Hobjs Hnext].
    cbn [list_loop page_contents listed_keys contents_keys].
    rewrite (scan_contents_decodable _ _ _ Hobjs).
    rewrite IH by assumption. now rewrite filter_app, app_assoc.
Qed.

Lemma list_loop_undecodable (bucket prefix : string) (start_time : Z)
    (answers : listing) (key : string) (e : exn) :
  In key (listed_keys answers) -> get_last_timestamp key = Raise e ->
  forall keys w,
    exists e', fst (list_loop bucket prefix answers start_time keys w) = Raise e'.
Proof.
  intros Hin Hkey.
  induction answers as [|contents|contents next IH]; intros keys w.
  - contradiction.
  - destruct contents as [objs|]; [|contradiction]. simpl in Hin.
    cbn [list_loop page_contents].
    destruct (scan_contents_undecodable start_time objs keys key e Hin Hkey)
      as [e' ->].
    now exists e'.
  - cbn [list_loop]. destruct contents as [objs|]; cbn [page_contents].
    + destruct (scan_contents objs start_time keys) as [keys'|e0] eqn:Hs;
        [|now exists e0].
      simpl in Hin. apply in_app_or in Hin as [Hin | Hin].
      * destruct (scan_contents_undecodable start_time objs keys key e Hin Hkey)
          as [e' He']. congruence.
      * now apply IH.
    + now exists KeyError.
Qed.

Lemma list_loop_lacks_contents (bucket prefix : string) (start_time : Z)
    (pages : list (list string)) (rest : listing) :
  Forall decodable (List.concat pages) -> lacks_contents rest = true ->
  forall keys w,
    fst (list_loop bucket prefix (after_pages pages rest) start_time keys w)
    = Raise KeyError.
Proof.
  intros Hd Hrest. induction pages as [|objs pages IH]; intros keys w.
  - simpl. destruct rest as [|[?|]|[?|] ?]; try discriminate; reflexivity.
  - simpl in Hd. apply Forall_app in Hd as [Hobjs Hpages].
    cbn [after_pages list_loop page_contents].
    rewrite (scan_contents_decodable _ _ _ Hobjs). now apply IH.
Qed.

Lemma list_loop_output (bucket prefix : string) (start_time : Z) (answers : listing) :
  forall keys w,
    output_csv (snd (list_loop bucket prefix answers start_time keys w)) = output_csv w
    /\ stdout (snd (list_loop bucket prefix answers start_time keys w)) = stdout w.
Proof.
  induction answers as [|contents|contents next IH]; intros keys w;
    cbn [list_loop].
  - now split.
  - destruct (page_contents _); [destruct (scan_contents _ _ _)|]; now split.
  - destruct (page_contents _); [destruct (scan_contents _ _ _)|]; try now split.
    destruct (IH a0 (record_call (ListObjectsV2 bucket prefix) w)) as [-> ->].
    now split.
Qed.

Lemma three_ints_not_integers (s : string) :
  integer_triple s = false -> three_ints s = Raise ValueError.
Proof.
  unfold integer_triple, three_ints.
  destruct (split "-" s) as [|a [|b [|c [|? ?]]]]; try reflexivity.
  simpl. destruct (py_int a), (py_int b), (py_int c); try reflexivity.
  discriminate.
Qed.

Lemma three_ints_raises (s : string) (e : exn) :
  three_ints s = Raise e -> e = ValueError.
Proof.
  unfold three_ints.
  destruct (split "-" s) as [|a [|b [|c [|? ?]]]]; try congruence.
  destruct (py_int a), (py_int b), (py_int c); congruence.
Qed.

Lemma get_last_timestamp_malformed (key : string) :
  matches_convention key = false -> get_last_timestamp key = Raise ValueError.
Proof.
  unfold matches_convention, get_last_timestamp.
  destruct (split "_" (stem key)) as [|date [|time [|disc [|? ?]]]];
    try reflexivity.
  intros H. apply andb_false_iff in H as [H | H].
  - now rewrite (three_ints_not_integers _ H).
  - rewrite (three_ints_not_integers _ H).
    destruct (three_ints date) as [ymd|e] eqn:Hd; [reflexivity|].
    now rewrite (three_ints_raises _ _ Hd).
Qed.

(** C6 (amended). For every listing in which every call is answered by a
    page that carries ['Contents'] and every listed key is decodable,
    [get_s3_keys] returns exactly the listed keys whose decoded end-time is
    [>= windowStart], in listing order, nothing reordered and nothing
    deduplicated. *)
Theorem get_s3_keys_prunes (store : s3) (bucket prefix : string)
    (start_time : Z) (w : world) :
  every_page_lists (list_objects_v2 store bucket prefix) = true ->
  Forall decodable (listed_keys (list_objects_v2 store bucket prefix)) ->
  fst (get_s3_keys store bucket prefix start_time w)
  = Return (filter (ends_in_window start_time)
              (listed_keys (list_objects_v2 store bucket prefix))).
Proof.
  intros Hp Hd. unfold get_s3_keys.
  now rewrite (list_loop_lists bucket prefix start_time _ Hp Hd).
Qed.

Lemma get_s3_keys_prunes_witness :
  fst (get_s3_keys archive "archive" "ember/trades/" midnight fresh)
  = Return (filter (ends_in_window midnight)
              (listed_keys (list_objects_v2 archive "archive" "ember/trades/"))).
Proof.
  apply (get_s3_keys_prunes archive "archive" "ember/trades/" midnight fresh).
  - reflexivity.
  - repeat constructor; eexists; vm_compute; reflexivity.
Defined.

(** C6, as stated, fails where nothing is stored under the prefix: every
    key of that listing is decodable (there is none), and [get_s3_keys]
    raises instead of returning the empty candidate set. *)
Lemma get_s3_keys_prunes_counterexample :
  Forall decodable (listed_keys (list_objects_v2 archive "archive" "ember/none/"))
  /\ fst (get_s3_keys archive "archive" "ember/none/" midnight fresh)
     <> Return (filter (ends_in_window midnight)
                  (listed_keys (list_objects_v2 archive "archive" "ember/none/"))).
Proof. split; [constructor | discriminate]. Qed.

(** C10. When the pages of a listing hold decodable keys up to a page that
    carries no ['Contents'], [get_s3_keys] raises [KeyError] instead of
    returning the keys gathered so far; [main] lets it escape, and
    [output.csv] is left as it was. *)
Theorem get_s3_keys_page_without_contents (store : s3) (bucket prefix : string)
    (start_time : Z) (w : world) (pages : list (list string)) (rest : listing) :
  list_objects_v2 store bucket prefix = after_pages pages rest ->
  Forall decodable (List.concat pages) ->
  lacks_contents rest = true ->
  fst (get_s3_keys store bucket prefix start_time w) = Raise KeyError
  /\ forall end_time,
       bucket <> "" -> prefix <> "" -> start_time <> 0 -> end_time <> 0 ->
       start_time < end_time ->
       snd (main store (mk_args (Some start_time) (Some end_time)
                          (Some bucket) (Some prefix)) w) = Some KeyError
       /\ output_csv (fst (main store (mk_args (Some start_time) (Some end_time)
                                         (Some bucket) (Some prefix)) w))
          = output_csv w.
Proof.
  intros Hl Hd Hrest.
  assert (Hk : fst (get_s3_keys store bucket prefix start_time w) = Raise KeyError).
  { unfold get_s3_keys. rewrite Hl. now apply list_loop_lacks_contents. }
  split; [exact Hk|].
  intros end_time Hb Hp Hs He Hlt. unfold main. cbn [arg_bucket arg_prefix
    arg_start_time arg_end_time truthy_str truthy_int].
  apply String.eqb_neq in Hb, Hp. rewrite Hb, Hp.
  apply Z.eqb_neq in Hs, He. rewrite Hs, He. cbn [negb andb].
  destruct (Z.geb_spec start_time end_time); [lia|].
  pose proof (list_loop_output bucket prefix start_time
                (list_objects_v2 store bucket prefix) [] w) as [Ho _].
  unfold get_s3_keys in *.
  destruct (list_loop bucket prefix (list_objects_v2 store bucket prefix)
              start_time [] w) as [r w'].
  simpl in Hk, Ho. subst r. now split.
Qed.

Lemma get_s3_keys_page_without_contents_witness :
  fst (get_s3_keys archive "archive" "ember/none/" midnight fresh) = Raise KeyError.
Proof.
  apply (get_s3_keys_page_without_contents archive "archive" "ember/none/"
           midnight fresh [] (LastPage None)).
  - reflexivity.
  - constructor.
  - reflexivity.
Defined.

(** C2 (amended). For every listed key whose basename does not match the
    naming convention (its stem does not split into exactly three
    underscore tokens, or a date or time component is no integer),
    [get_last_timestamp] raises [ValueError], and [get_s3_keys] does not
    handle it: the listing raises, and no candidate set is returned. *)
Theorem malformed_key_aborts_listing (store : s3) (bucket prefix : string)
    (start_time : Z) (w : world) (key : string) :
  matches_convention key = false ->
  In key (listed_keys (list_objects_v2 store bucket prefix)) ->
  get_last_timestamp key = Raise ValueError
  /\ exists e, fst (get_s3_keys store bucket prefix start_time w) = Raise e.
Proof.
  intros Hm Hin. pose proof (get_last_timestamp_malformed key Hm) as Hk.
  split; [exact Hk|]. unfold get_s3_keys.
  now apply (list_loop_undecodable bucket prefix start_time _ key ValueError).
Qed.

Lemma malformed_key_aborts_listing_witness :
  get_last_timestamp key_readme = Raise ValueError
  /\ exists e, fst (get_s3_keys archive "archive" "ember/mixed/" midnight fresh)
               = Raise e.
Proof.
  apply (malformed_key_aborts_listing archive "archive" "ember/mixed/" midnight
           fresh key_readme).
  - reflexivity.
  - left. reflexivity.
Defined.

(** C2, as stated, fails on a listing that holds a file named
    [README.txt]: the key does not match the convention, and [get_s3_keys]
    returns no candidate set that retains it. *)
Lemma malformed_key_retained_counterexample :
  matches_convention key_readme = false
  /\ In key_readme (listed_keys (list_objects_v2 archive "archive" "ember/mixed/"))
  /\ ~ exists keys,
        fst (get_s3_keys archive "archive" "ember/mixed/" midnight fresh)
        = Return keys /\ In key_readme keys.
Proof.
  split; [reflexivity|]. split; [left; reflexivity|].
  intros [keys [H _]]. vm_compute in H. discriminate.
Qed.

(** ** RecordFilter *)

Lemma in_select (df : DataFrame) (mask : list bool) (r : list cell) :
  In r (rows (select df mask)) ->
  exists j, nth_error (rows df) j = Some r /\ nth_error mask j = Some true.
Proof.
  unfold select. cbn [rows]. generalize (rows df) as rs.
  intros rs. revert mask. induction rs as [|r0 rs IH]; intros [|b mask] H;
    try contradiction.
  cbn [combine filter snd] in H. destruct b.
  - destruct H as [<- | H]; [now exists O|].
    destruct (IH _ H) as [j Hj]. now exists (S j).
  - destruct (IH _ H) as [j Hj]. now exists (S j).
Qed.

Lemma mapM_nth {A B : Type} (f : A -> result B) (l : list A) (bs : list B)
    (j : nat) (a : A) (b : B) :
  mapM f l = Return bs -> nth_error l j = Some a -> nth_error bs j = Some b ->
  f a = Return b.
Proof.
  revert bs j. induction l as [|x l IH]; intros bs j H Ha Hb.
  - destruct j; discriminate.
  - cbn [mapM] in H. bind_inv H as y Ey. bind_inv H as ys Eys.
    injection H as <-. destruct j as [|j]; simpl in Ha, Hb.
    + congruence.
    + eapply IH; eauto.
Qed.

Lemma mapM_length {A B : Type} (f : A -> result B) (l : list A) (bs : list B) :
  mapM f l = Return bs -> List.length bs = List.length l.
Proof.
  revert bs. induction l as [|x l IH]; intros bs H; cbn [mapM] in H.
  - now injection H as <-.
  - bind_inv H as y Ey. bind_inv H as ys Eys. injection H as <-.
    simpl. now rewrite (IH ys).
Qed.

Lemma nth_error_both (ge le : list bool) (j : nat) :
  nth_error (map (fun p => fst p && snd p) (combine ge le)) j = Some true ->
  nth_error ge j = Some true /\ nth_error le j = Some true.
Proof.
  revert le j. induction ge as [|g ge IH]; intros [|l le] [|j] H;
    try discriminate; simpl in *.
  - injection H as H. apply andb_true_iff in H as [-> ->]. now split.
  - now apply IH.
Qed.

Lemma getitem_inv (df : DataFrame) (name : string) (series : list cell) :
  getitem df name = Return series ->
  exists i, index_of name (columns df) = Some i
            /\ series = map (fun r => nth i r Null) (rows df).
Proof.
  unfold getitem. destruct (index_of name (columns df)) as [i|]; [|discriminate].
  intros H. injection H as <-. now exists i.
Qed.

Lemma compare_time_true (op : Z -> Z -> bool) (c : cell) (t : Z) :
  compare_time op c t = Return true -> exists z, c = Time z /\ op z t = true.
Proof.
  destruct c as [|s|z]; simpl; try discriminate.
  intros H. injection H as H. now exists z.
Qed.

Lemma eq_str_true (s : string) (c : cell) : eq_str s c = true -> c = Str s.
Proof.
  destruct c as [|s'|z]; simpl; try discriminate.
  intros H. apply String.eqb_eq in H. now subst.
Qed.

Lemma append_no_rows (names : list string) (f : list line) :
  append (mk_frame names []) f = f.
Proof. unfold append, empty. simpl. now rewrite orb_true_r. Qed.

(** What [filter_frame] appends is a batch of kept rows under the columns of
    the frame. *)
Lemma filter_frame_appends (df : DataFrame) (start_time end_time : Z)
    (f f' : list line) (fl : flow) :
  filter_frame df start_time end_time f = Return (fl, f') ->
  exists rs, f' = append (mk_frame (columns df) rs) f
             /\ Forall (kept_row df start_time end_time) rs.
Proof.
  unfold filter_frame. intros H.
  bind_inv H as ts Ets. bind_inv H as last_ts Elast. bind_inv H as before Ebefore.
  destruct before; [injection H as _ <-; exists []; now rewrite append_no_rows|].
  bind_inv H as first_ts Efirst. bind_inv H as after Eafter.
  destruct after; [injection H as _ <-; exists []; now rewrite append_no_rows|].
  bind_inv H as ty Ety. bind_inv H as ts1 Ets1. bind_inv H as ge Ege.
  bind_inv H as le Ele.
  injection H as _ <-.
  set (typed := select df (map (eq_str wanted_type) ty)) in *.
  exists (rows (select typed (map (fun p => fst p && snd p) (combine ge le)))).
  split; [reflexivity|].
  apply Forall_forall. intros r Hr.
  apply in_select in Hr as (j & Hj & Hmask).
  apply nth_error_both in Hmask as [Hge Hle].
  apply getitem_inv in Ets1 as (it & Hit & ->).
  assert (Hcell : nth_error (map (fun r => nth it r Null) (rows typed)) j
                  = Some (nth it r Null))
    by exact (map_nth_error (fun r => nth it r Null) j (rows typed) Hj).
  pose proof (mapM_nth _ _ _ _ _ _ Ege Hcell Hge) as Hlo.
  pose proof (mapM_nth _ _ _ _ _ _ Ele Hcell Hle) as Hhi.
  apply compare_time_true in Hlo as (z & Hz & Hlo).
  apply compare_time_true in Hhi as (z' & Hz' & Hhi).
  rewrite Hz in Hz'. injection Hz' as <-.
  apply nth_error_In in Hj. apply in_select in Hj as (k & Hk & Hty).
  apply getitem_inv in Ety as (iy & Hiy & ->).
  rewrite map_map in Hty.
  rewrite (map_nth_error (fun r => eq_str wanted_type (nth iy r Null)) k (rows df) Hk) in Hty.
  injection Hty as Hty.
  apply eq_str_true in Hty.
  unfold kept_row, cell_of. change (columns typed) with (columns df) in Hit.
  rewrite Hit, Hiy. cbn [option_map]. repeat split.
  - eapply nth_error_In; eauto.
  - exists z. split; [now rewrite Hz|]. lia.
  - now rewrite Hty.
Qed.


(** ** The window *)

Lemma convert_window_in (start_time end_time : Z) :
  representable start_time = true -> representable end_time = true ->
  convert_window start_time end_time
  = Return (nanoseconds start_time, nanoseconds end_time).
Proof.
  intros Hs He. unfold convert_window, to_datetime. now rewrite Hs, He.
Qed.

Lemma convert_window_out (start_time end_time : Z) :
  representable start_time && representable end_time = false ->
  convert_window start_time end_time = Raise ValueError.
Proof.
  unfold convert_window, to_datetime.
  destruct (representable start_time); [|reflexivity].
  destruct (representable end_time); [discriminate | reflexivity].
Qed.

Lemma retrieve_objects_in (store : s3) (bucket : string) (keys : list string)
    (start_time end_time : Z) (w : world) :
  representable start_time = true -> representable end_time = true ->
  retrieve_objects store bucket keys start_time end_time w
  = match drain store bucket keys (nanoseconds start_time)
            (nanoseconds end_time) (set_output [] w) with
    | (w', Propagated e) => (w', Some e)
    | (w', _) => (w', None)
    end.
Proof.
  intros Hs He. unfold retrieve_objects.
  now rewrite (convert_window_in _ _ Hs He).
Qed.

(** A window that cannot be converted ends the run before anything is
    touched. *)
Lemma retrieve_objects_out (store : s3) (bucket : string) (keys : list string)
    (start_time end_time : Z) (w : world) :
  representable start_time && representable end_time = false ->
  retrieve_objects store bucket keys start_time end_time w = (w, Some ValueError).
Proof.
  intros H. unfold retrieve_objects. now rewrite (convert_window_out _ _ H).
Qed.

(** ** Pipeline *)

(** One turn appends a batch taken from the object of its key, or
    nothing. *)
Lemma turn_appends (store : s3) (bucket key : string) (start_time end_time : Z)
    (w : world) :
  exists b,
    output_csv (fst (turn store bucket key start_time end_time w))
    = append b (output_csv w)
    /\ (empty b = true \/ batch_of store bucket key start_time end_time b).
Proof.
  unfold turn, try_body, fetch, batch_of. cbn [record_call output_csv].
  destruct (get_object store bucket key) as [[| | |df]|] eqn:Hget;
    cbn [bind read_frame].
  1,2,3,5: exists (mk_frame [] []); rewrite append_no_rows; split;
    [reflexivity | now left].
  destruct (filter_frame df start_time end_time (output_csv w))
    as [[fl f']|e] eqn:Hf.
  - apply filter_frame_appends in Hf as (rs & -> & Hrs).
    exists (mk_frame (columns df) rs). split.
    + now destruct fl.
    + right. now exists df.
  - exists (mk_frame [] []). rewrite append_no_rows. split; [|now left].
    now destruct e.
Qed.

(** Whatever holds of the file and is kept by such appends holds after the
    loop. *)
Lemma drain_invariant (store : s3) (bucket : string) (start_time end_time : Z)
    (keys : list string) (Q : list line -> Prop) :
  (forall key b f,
     In key keys ->
     empty b = true \/ batch_of store bucket key start_time end_time b ->
     Q f -> Q (append b f)) ->
  forall ks w,
    incl ks keys -> Q (output_csv w) ->
    Q (output_csv (fst (drain store bucket ks start_time end_time w))).
Proof.
  intros Hstep ks. induction ks as [|key ks IH]; intros w Hin HQ; [exact HQ|].
  cbn [drain].
  destruct (turn_appends store bucket key start_time end_time w)
    as (b & Hout & Hb).
  destruct (turn store bucket key start_time end_time w) as [w' [e|]];
    cbn [fst] in Hout |- *.
  - rewrite Hout. apply (Hstep key); trivial. apply Hin. now left.
  - apply IH.
    + intros k Hk. apply Hin. now right.
    + rewrite Hout. apply (Hstep key); trivial. apply Hin. now left.
Qed.

Lemma retrieve_objects_output (store : s3) (bucket : string) (keys : list string)
    (start_time end_time : Z) (w : world) :
  representable start_time = true -> representable end_time = true ->
  output_csv (fst (retrieve_objects store bucket keys start_time end_time w))
  = output_csv (fst (drain store bucket keys (nanoseconds start_time)
                       (nanoseconds end_time) (set_output [] w))).
Proof.
  intros Hs He. rewrite (retrieve_objects_in _ _ _ _ _ _ Hs He).
  now destruct (drain store bucket keys (nanoseconds start_time)
                  (nanoseconds end_time) (set_output [] w)) as [w' [| |e]].
Qed.

Lemma in_append_row (b : DataFrame) (f : list line) (cells : list cell) :
  In (Row cells) (append b f) -> In (Row cells) f \/ In cells (rows b).
Proof.
  unfold append, to_csv.
  destruct (negb (empty b)); [|now left].
  intros H. apply in_app_or in H as [H | H]; [now left|].
  apply in_app_or in H as [H | H].
  - destruct (tell_is_zero f); [|contradiction].
    destruct H as [H | []]. discriminate.
  - apply in_map_iff in H as (r & Hr & Hin). injection Hr as <-. now right.
Qed.

(** C3. Every record that a run of [retrieve_objects] emits into the output
    table is a record of the object of one of the keys, its [Timestamp]
    lies in the closed window [[window.start, window.end]] and its [Type]
    is the wanted event kind. With a window that pandas can represent, the
    file is truncated first and all its rows are such records; with a
    window that it cannot, the conversion at lines 52-53 raises, the run
    emits nothing and the file is not touched. *)
Theorem retrieve_objects_filters (store : s3) (bucket : string)
    (keys : list string) (start_time end_time : Z) (w : world) :
  (representable start_time = true -> representable end_time = true ->
   forall cells,
     In (Row cells)
        (output_csv (fst (retrieve_objects store bucket keys start_time end_time w))) ->
     exists key df t,
       In key keys
       /\ get_object store bucket key = Some (JsonLines df)
       /\ In cells (rows df)
       /\ cell_of df "Timestamp" cells = Some (Time t)
       /\ nanoseconds start_time <= t <= nanoseconds end_time
       /\ cell_of df "Type" cells = Some (Str wanted_type))
  /\ (representable start_time && representable end_time = false ->
      retrieve_objects store bucket keys start_time end_time w
      = (w, Some ValueError)).
Proof.
  split; [|apply retrieve_objects_out].
  intros Hs He. rewrite (retrieve_objects_output _ _ _ _ _ _ Hs He).
  apply (drain_invariant store bucket (nanoseconds start_time)
           (nanoseconds end_time) keys
           (fun f => forall cells, In (Row cells) f -> _)).
  - intros key b f Hkey Hb Hf cells Hin.
    destruct (in_append_row _ _ _ Hin) as [Hold | Hnew]; [now apply Hf|].
    destruct Hb as [Hb | (df & Hget & _ & Hrows)].
    + unfold append in Hin. rewrite Hb in Hin. now apply Hf.
    + rewrite Forall_forall in Hrows.
      destruct (Hrows _ Hnew) as (Hrow & (t & Ht & Hwin) & Hty).
      now exists key, df, t.
  - apply incl_refl.
  - intros cells [].
Qed.

Lemma retrieve_objects_filters_witness :
  exists key df t,
    In key [key_a; key_b]
    /\ get_object archive "archive" key = Some (JsonLines df)
    /\ In (event 120 "OrderTradeReportEvent" "100.5") (rows df)
    /\ cell_of df "Timestamp" (event 120 "OrderTradeReportEvent" "100.5")
       = Some (Time t)
    /\ nanoseconds midnight <= t <= nanoseconds (midnight + 540)
    /\ cell_of df "Type" (event 120 "OrderTradeReportEvent" "100.5")
       = Some (Str wanted_type).
Proof.
  apply (retrieve_objects_filters archive "archive" [key_a; key_b] midnight
           (midnight + 540) stale).
  - reflexivity.
  - reflexivity.
  - vm_compute. right. left. reflexivity.
Defined.

(** A window beyond the range of pandas timestamps: the run raises and
    leaves the rows of an earlier run where they were. *)
Example retrieve_objects_window_out_of_bounds :
  retrieve_objects archive "archive" [key_a; key_b] midnight 100000000000000000 stale
  = (stale, Some ValueError).
Proof. reflexivity. Qed.

(** ** Sink *)

Lemma no_header_in_rows (batches : list DataFrame) :
  filter is_header (flat_map (fun b => map Row (rows b)) batches) = [].
Proof.
  induction batches as [|b bs IH]; [reflexivity|].
  cbn [flat_map]. rewrite filter_app, IH, app_nil_r.
  induction (rows b) as [|r rs IHr]; [reflexivity | exact IHr].
Qed.

Lemma count_headers_table_of (batches : list DataFrame) :
  count_headers (table_of batches)
  = match batches with [] => 0%nat | _ :: _ => 1%nat end.
Proof.
  destruct batches as [|b bs]; [reflexivity|].
  unfold count_headers, table_of. cbn [filter is_header].
  now rewrite no_header_in_rows.
Qed.

Lemma append_table_of (df : DataFrame) (batches : list DataFrame) :
  append df (table_of batches)
  = table_of (batches ++ (if empty df then [] else [df]))%list.
Proof.
  unfold append. destruct (empty df); cbn [negb]; [now rewrite app_nil_r|].
  destruct batches as [|b bs].
  - cbn [table_of app tell_is_zero to_csv flat_map]. now rewrite app_nil_r.
  - change ((b :: bs) ++ [df])%list with (b :: (bs ++ [df]))%list.
    cbn [table_of tell_is_zero to_csv]. rewrite <- app_comm_cons. f_equal.
    change (b :: (bs ++ [df]))%list with ((b :: bs) ++ [df])%list.
    rewrite flat_map_app. cbn [flat_map app]. now rewrite app_nil_r.
Qed.

Lemma append_keeps_table (P : DataFrame -> Prop) (df : DataFrame) (f : list line) :
  empty df = true \/ P df ->
  (exists batches,
     Forall (fun b => empty b = false /\ P b) batches /\ f = table_of batches) ->
  exists batches,
    Forall (fun b => empty b = false /\ P b) batches
    /\ append df f = table_of batches.
Proof.
  intros Hdf (bs & Hbs & ->). rewrite append_table_of.
  eexists. split; [|reflexivity].
  apply Forall_app. split; [exact Hbs|].
  destruct (empty df) eqn:He; [constructor|].
  destruct Hdf as [Hdf | Hdf]; [discriminate|]. now repeat constructor.
Qed.

(** With a window that can be converted, the file that a run leaves is the
    table of non-empty batches, each taken from the object of one key. *)
Lemma retrieve_objects_table (store : s3) (bucket : string) (keys : list string)
    (start_time end_time : Z) (w : world) :
  representable start_time = true -> representable end_time = true ->
  exists batches,
    Forall (fun b =>
              empty b = false
              /\ exists key,
                   In key keys
                   /\ batch_of store bucket key (nanoseconds start_time)
                        (nanoseconds end_time) b) batches
    /\ output_csv (fst (retrieve_objects store bucket keys start_time end_time w))
       = table_of batches.
Proof.
  intros Hs He. rewrite (retrieve_objects_output _ _ _ _ _ _ Hs He).
  set (from_key := fun b : DataFrame =>
         exists key,
           In key keys
           /\ batch_of store bucket key (nanoseconds start_time)
                (nanoseconds end_time) b).
  apply (drain_invariant store bucket (nanoseconds start_time)
           (nanoseconds end_time) keys
           (fun f => exists batches,
                Forall (fun b => empty b = false /\ from_key b) batches
                /\ f = table_of batches)).
  - intros key b f Hkey Hb. apply append_keeps_table.
    destruct Hb as [Hb | Hb]; [now left | right; now exists key].
  - apply incl_refl.
  - exists []. now split.
Qed.

Lemma retrieve_objects_one_header (store : s3) (bucket : string)
    (keys : list string) (start_time end_time : Z) (w : world) :
  representable start_time = true -> representable end_time = true ->
  (count_headers
     (output_csv (fst (retrieve_objects store bucket keys start_time end_time w)))
   <= 1)%nat.
Proof.
  intros Hs He.
  destruct (retrieve_objects_table store bucket keys start_time end_time w Hs He)
    as (bs & _ & ->).
  rewrite count_headers_table_of. destruct bs; lia.
Qed.

(** C7 (amended). A run whose window pandas can represent truncates
    [output.csv] before it writes: whatever the file held before, at the
    end it is the table of the non-empty batches appended during the run,
    each made of the columns of the object of one key and of rows kept from
    it. When no batch is non-empty the table is empty and holds no header;
    otherwise it holds the header exactly once, the columns of the first
    non-empty batch, before the first data row, and no later batch repeats
    it. A run whose window cannot be represented raises at lines 52-53 and
    leaves the file as it was. Appending an empty batch writes nothing. *)
Theorem header_written_once (store : s3) (bucket : string) (keys : list string)
    (start_time end_time : Z) (w : world) :
  (representable start_time = true -> representable end_time = true ->
   (forall f0,
      output_csv (fst (retrieve_objects store bucket keys start_time end_time
                         (set_output f0 w)))
      = output_csv (fst (retrieve_objects store bucket keys start_time end_time w)))
   /\ exists batches,
        Forall (fun b =>
                  empty b = false
                  /\ exists key,
                       In key keys
                       /\ batch_of store bucket key (nanoseconds start_time)
                            (nanoseconds end_time) b) batches
        /\ output_csv (fst (retrieve_objects store bucket keys start_time end_time w))
           = table_of batches
        /\ count_headers
             (output_csv (fst (retrieve_objects store bucket keys start_time end_time w)))
           = match batches with [] => 0%nat | _ :: _ => 1%nat end)
  /\ (representable start_time && representable end_time = false ->
      retrieve_objects store bucket keys start_time end_time w
      = (w, Some ValueError))
  /\ (forall df f, empty df = true -> append df f = f).
Proof.
  split; [|split].
  - intros Hs He. split.
    + intros f0. now rewrite !(retrieve_objects_in _ _ _ _ _ _ Hs He).
    + destruct (retrieve_objects_table store bucket keys start_time end_time w Hs He)
        as (bs & Hbs & Hout).
      exists bs. rewrite Hout, count_headers_table_of. now repeat split.
  - apply retrieve_objects_out.
  - intros df f He. unfold append. now rewrite He.
Qed.

Lemma header_written_once_witness :
  count_headers
    (output_csv (fst (retrieve_objects archive "archive" [key_a; key_b; key_c]
                        midnight (midnight + 1200) stale)))
  = 1%nat.
Proof.
  destruct (header_written_once archive "archive" [key_a; key_b; key_c]
              midnight (midnight + 1200) stale) as (Hrun & _ & _).
  destruct Hrun as (_ & batches & _ & Hout & Hcount); [reflexivity..|].
  rewrite Hcount. destruct batches; [discriminate Hout | reflexivity].
Defined.

(** C7, as stated, fails on a run whose window holds no trade: the run
    ends normally and the output table holds no header at all. *)
Lemma header_written_once_counterexample :
  snd (main archive (run_args (midnight + 400) (midnight + 740) "ember/trades/") stale)
  = None
  /\ count_headers
       (output_csv (fst (main archive
                           (run_args (midnight + 400) (midnight + 740) "ember/trades/")
                           stale)))
     <> 1%nat.
Proof. vm_compute. split; [reflexivity | discriminate]. Qed.

(** C1. The code does not isolate every decode error. On the keys [key_a],
    [key_no_timestamp], [key_c], the object of the second key parses to
    records without [Timestamp]: the [KeyError] is caught by a handler
    whose message names the unbound [line], the [NameError] escapes, and
    the run ends there, the third key never fetched. An object that is no
    gzip stream ends the run in the same way, its error handled by no
    clause. Rows written for earlier keys stay. *)
Theorem retrieve_objects_decode_error_escapes :
  retrieve_objects archive "archive" [key_a; key_no_timestamp; key_c]
    midnight (midnight + 1200) stale
  = (mk_world [Header event_columns; Row (event 120 "OrderTradeReportEvent" "100.5")]
       []
       [GetObject "archive" key_a; GetObject "archive" key_no_timestamp],
     Some NameError)
  /\ retrieve_objects archive "archive" [key_a; key_not_gzip; key_c]
       midnight (midnight + 1200) stale
     = (mk_world [Header event_columns; Row (event 120 "OrderTradeReportEvent" "100.5")]
          []
          [GetObject "archive" key_a; GetObject "archive" key_not_gzip],
        Some OSError).
Proof. split; vm_compute; reflexivity. Qed.

(** Fetch errors and JSON errors are isolated: the key is logged and the
    loop goes on (compare with C1). *)
Example retrieve_objects_isolates_fetch_and_json_errors :
  retrieve_objects archive "archive" [key_a; key_denied; key_bad_json; key_c]
    midnight (midnight + 1200) stale
  = (mk_world
       [Header event_columns;
        Row (event 120 "OrderTradeReportEvent" "100.5");
        Row (event 780 "OrderTradeReportEvent" "102.0");
        Row (event 1140 "OrderTradeReportEvent" "102.5")]
       [FailedToRead key_denied; FailedToParse key_bad_json]
       [GetObject "archive" key_a; GetObject "archive" key_denied;
        GetObject "archive" key_bad_json; GetObject "archive" key_c],
     None).
Proof. vm_compute. reflexivity. Qed.

(** A gzip stream that ends too early raises [EOFError], which no clause
    handles either. *)
Example retrieve_objects_truncated_gzip :
  snd (retrieve_objects archive "archive" [key_a; key_truncated; key_c]
         midnight (midnight + 1200) stale)
  = Some EOFError.
Proof. vm_compute. reflexivity. Qed.

(** ** Early termination *)

Lemma turn_not_exhausted (store : s3) (bucket key : string)
    (start_time end_time : Z) (w : world) :
  snd (turn store bucket key start_time end_time w) <> Some Exhausted.
Proof.
  unfold turn.
  destruct (try_body store bucket key start_time end_time
              (output_csv (record_call (GetObject bucket key) w)))
    as [[[|] f]|[]]; discriminate.
Qed.

Lemma drain_app (store : s3) (bucket : string) (start_time end_time : Z)
    (ks1 ks2 : list string) (w w1 : world) :
  drain store bucket ks1 start_time end_time w = (w1, Exhausted) ->
  drain store bucket (ks1 ++ ks2) start_time end_time w
  = drain store bucket ks2 start_time end_time w1.
Proof.
  revert w. induction ks1 as [|key ks1 IH]; intros w H.
  - simpl in H. now injection H as <-.
  - cbn [drain app] in *.
    pose proof (turn_not_exhausted store bucket key start_time end_time w) as Hn.
    destruct (turn store bucket key start_time end_time w) as [w' [e|]].
    + injection H as _ ->. now elim Hn.
    + now apply IH.
Qed.

Lemma set_output_same (w : world) : set_output (output_csv w) w = w.
Proof. now destruct w. Qed.

(** The turn of an object whose first record lies after the window and
    whose last record does not lie before it leaves the loop, the file
    untouched. *)
Lemma turn_stops (store : s3) (bucket key : string) (start_time end_time : Z)
    (w : world) (df : DataFrame) (t : Z) :
  get_object store bucket key = Some (JsonLines df) ->
  first_record_time df = Some t -> end_time < t ->
  last_record_before df start_time = false ->
  exists e,
    turn store bucket key start_time end_time w
    = (record_call (GetObject bucket key) w, Some e).
Proof.
  intros Hget Hfirst Hlate Hlast.
  unfold turn, try_body, fetch, filter_frame. rewrite Hget.
  cbn [bind read_frame].
  unfold first_record_time, last_record_before in *.
  destruct (getitem df "Timestamp") as [[|c ts]|] eqn:Hts; try discriminate.
  destruct c as [| |t']; try discriminate. injection Hfirst as ->.
  cbn [bind iloc_last].
  destruct (last (Time t :: ts) Null) as [|s|z]; cbn [compare_time bind].
  - cbn [iloc_first bind compare_time].
    destruct (Z.gtb_spec t end_time); [|lia].
    rewrite set_output_same. now eexists.
  - now eexists.
  - rewrite Hlast. cbn [iloc_first bind compare_time].
    destruct (Z.gtb_spec t end_time); [|lia].
    rewrite set_output_same. now eexists.
Qed.

Lemma nondecreasing_head (a : Z) (l : list Z) :
  nondecreasing (a :: l) = true -> forall x, In x l -> a <= x.
Proof.
  revert a. induction l as [|b l IH]; intros a H x Hx; [contradiction|].
  cbn [nondecreasing] in H. apply andb_true_iff in H as [Hab Hl].
  apply Z.leb_le in Hab. destruct Hx as [<- | Hx]; [exact Hab|].
  pose proof (IH b Hl x Hx). lia.
Qed.

Lemma last_time_in (series : list cell) (z : Z) :
  last series Null = Time z -> In z (times series).
Proof.
  induction series as [|c series IH]; [discriminate|].
  destruct series as [|c' series'].
  - simpl. intros ->. now left.
  - intros H. change (last (c :: c' :: series') Null)
      with (last (c' :: series') Null) in H.
    specialize (IH H). destruct c; cbn [times]; trivial. now right.
Qed.

(** In a frame with ordered records, a first record at or after the window
    start leaves no last record before it. *)
Lemma ordered_not_before (df : DataFrame) (start_time t : Z) :
  records_ordered df = true -> first_record_time df = Some t ->
  start_time <= t -> last_record_before df start_time = false.
Proof.
  unfold records_ordered, first_record_time, last_record_before.
  destruct (getitem df "Timestamp") as [[|c ts]|]; try discriminate.
  destruct c as [| |t']; try discriminate.
  intros Hord Hfirst Hle. injection Hfirst as ->.
  destruct (last (Time t :: ts) Null) as [| |z] eqn:Hlast; trivial.
  apply last_time_in in Hlast. cbn [times] in Hlast, Hord.
  apply Z.ltb_ge. destruct Hlast as [<- | Hz]; [exact Hle|].
  pose proof (nondecreasing_head t _ Hord z Hz). lia.
Qed.

(** C4. With a window [start <= end] that pandas can represent and objects
    whose records are non-decreasing in [Timestamp], once the loop reaches
    a key whose object parses and whose first record has a [Timestamp]
    strictly greater than [window.end], the run ends with the fetch of that
    key: no later key is fetched or drained and no row is appended to the
    output. *)
Theorem early_termination (store : s3) (bucket : string)
    (before after : list string) (key : string) (start_time end_time : Z)
    (w w1 : world) (df : DataFrame) (t : Z) :
  representable start_time = true -> representable end_time = true ->
  start_time <= end_time ->
  drain store bucket before (nanoseconds start_time) (nanoseconds end_time)
    (set_output [] w) = (w1, Exhausted) ->
  get_object store bucket key = Some (JsonLines df) ->
  records_ordered df = true ->
  first_record_time df = Some t -> nanoseconds end_time < t ->
  fst (retrieve_objects store bucket (before ++ key :: after) start_time end_time w)
  = record_call (GetObject bucket key) w1.
Proof.
  intros Hs He Hwin Hbefore Hget Hord Hfirst Hlate.
  assert (Hlast : last_record_before df (nanoseconds start_time) = false).
  { apply (ordered_not_before df (nanoseconds start_time) t Hord Hfirst).
    unfold nanoseconds in *. lia. }
  rewrite (retrieve_objects_in _ _ _ _ _ _ Hs He).
  rewrite (drain_app _ _ _ _ _ _ _ _ Hbefore). cbn [drain].
  destruct (turn_stops store bucket key (nanoseconds start_time)
              (nanoseconds end_time) w1 df t Hget Hfirst Hlate Hlast) as [e ->].
  now destruct e.
Qed.

Lemma early_termination_witness :
  fst (retrieve_objects archive "archive" ([key_a; key_b] ++ key_c :: [key_late])
         midnight (midnight + 540) stale)
  = record_call (GetObject "archive" key_c)
      (fst (drain archive "archive" [key_a; key_b] (nanoseconds midnight)
              (nanoseconds (midnight + 540)) (set_output [] stale))).
Proof.
  apply (early_termination archive "archive" [key_a; key_b] [key_late] key_c
           midnight (midnight + 540) stale _ frame_c
           (nanoseconds (midnight + 780))).
  - reflexivity.
  - reflexivity.
  - unfold midnight. lia.
  - vm_compute. reflexivity.
  - reflexivity.
  - reflexivity.
  - reflexivity.
  - vm_compute. reflexivity.
Defined.

(** What the ordering of the records is needed for: the first record of
    [key_unsorted] lies after the window end and its last record before
    the window start, the skip of line 66 is taken before the break of
    line 68 is tried, and the next key is fetched. *)
Example records_out_of_order :
  records_ordered frame_unsorted = false
  /\ first_record_time frame_unsorted = Some (nanoseconds (midnight + 2400))
  /\ In (GetObject "archive" key_c)
        (s3_calls (fst (retrieve_objects archive "archive" [key_unsorted; key_c]
                          midnight (midnight + 1200) fresh))).
Proof.
  repeat split; try reflexivity.
  vm_compute. right. left. reflexivity.
Qed.

(** ** Runs *)

Lemma turn_same (store : s3) (bucket key : string) (start_time end_time : Z)
    (w w' : world) :
  same_output w w' ->
  same_output (fst (turn store bucket key start_time end_time w))
              (fst (turn store bucket key start_time end_time w'))
  /\ snd (turn store bucket key start_time end_time w)
     = snd (turn store bucket key start_time end_time w').
Proof.
  unfold same_output, turn. cbn [record_call output_csv]. intros H. rewrite H.
  destruct (try_body store bucket key start_time end_time (output_csv w'))
    as [[[|] f]|[]]; cbn [fst snd set_output print output_csv]; now split.
Qed.

Lemma drain_same (store : s3) (bucket : string) (start_time end_time : Z)
    (keys : list string) (w w' : world) :
  same_output w w' ->
  same_output (fst (drain store bucket keys start_time end_time w))
              (fst (drain store bucket keys start_time end_time w'))
  /\ snd (drain store bucket keys start_time end_time w)
     = snd (drain store bucket keys start_time end_time w').
Proof.
  revert w w'. induction keys as [|key keys IH]; intros w w' H; [now split|].
  cbn [drain].
  destruct (turn_same store bucket key start_time end_time w w' H) as [Ho He].
  destruct (turn store bucket key start_time end_time w) as [w1 o1],
    (turn store bucket key start_time end_time w') as [w1' o1'].
  cbn [fst snd] in Ho, He. subst o1'. destruct o1 as [e|]; [now split|].
  now apply IH.
Qed.

(** With a window that can be converted, the table that a run of
    [retrieve_objects] leaves, and the way the run ends, do not depend on
    the world it starts from. *)
Lemma retrieve_objects_same (store : s3) (bucket : string) (keys : list string)
    (start_time end_time : Z) (w w' : world) :
  representable start_time = true -> representable end_time = true ->
  output_csv (fst (retrieve_objects store bucket keys start_time end_time w))
  = output_csv (fst (retrieve_objects store bucket keys start_time end_time w'))
  /\ snd (retrieve_objects store bucket keys start_time end_time w)
     = snd (retrieve_objects store bucket keys start_time end_time w').
Proof.
  intros Hs He. rewrite !(retrieve_objects_in _ _ _ _ _ _ Hs He).
  destruct (drain_same store bucket (nanoseconds start_time) (nanoseconds end_time)
              keys (set_output [] w) (set_output [] w')) as [Ho Hend];
    [reflexivity|].
  destruct (drain store bucket keys (nanoseconds start_time)
              (nanoseconds end_time) (set_output [] w)) as [w1 e1],
    (drain store bucket keys (nanoseconds start_time)
       (nanoseconds end_time) (set_output [] w')) as [w1' e1'].
  cbn [fst snd] in Ho, Hend. subst e1'. destruct e1; now split.
Qed.

Lemma list_loop_same (bucket prefix : string) (start_time : Z) (answers : listing) :
  forall keys w w',
    fst (list_loop bucket prefix answers start_time keys w)
    = fst (list_loop bucket prefix answers start_time keys w').
Proof.
  induction answers as [|contents|contents next IH]; intros keys w w';
    cbn [list_loop]; destruct (page_contents _); trivial;
    destruct (scan_contents _ _ _); trivial; apply IH.
Qed.

(** Two runs of [main] on the same store and arguments end in the same way;
    either both leave [output.csv] as they found it, or both leave the same
    table. *)
Lemma main_same (store : s3) (a : args) (w w' : world) :
  snd (main store a w) = snd (main store a w')
  /\ ((output_csv (fst (main store a w)) = output_csv w
       /\ output_csv (fst (main store a w')) = output_csv w')
      \/ output_csv (fst (main store a w)) = output_csv (fst (main store a w'))).
Proof.
  unfold main.
  destruct (negb (truthy_str (arg_bucket a))); [split; [|left]; now split|].
  destruct (negb (truthy_str (arg_prefix a))); [split; [|left]; now split|].
  destruct (arg_bucket a) as [bucket|]; [|split; [|left]; now split].
  destruct (arg_prefix a) as [prefix|]; [|split; [|left]; now split].
  destruct (arg_start_time a) as [start_time|]; [|split; [|left]; now split].
  destruct (arg_end_time a) as [end_time|]; [|split; [|left]; now split].
  destruct (truthy_int (Some start_time) && truthy_int (Some end_time));
    [|split; [|left]; now split].
  destruct (start_time >=? end_time); [split; [|left]; now split|].
  unfold get_s3_keys.
  pose proof (list_loop_same bucket prefix start_time
                (list_objects_v2 store bucket prefix) [] w w') as Hr.
  pose proof (list_loop_output bucket prefix start_time
                (list_objects_v2 store bucket prefix) [] w) as [Ho _].
  pose proof (list_loop_output bucket prefix start_time
                (list_objects_v2 store bucket prefix) [] w') as [Ho' _].
  destruct (list_loop bucket prefix (list_objects_v2 store bucket prefix)
              start_time [] w) as [r w1],
    (list_loop bucket prefix (list_objects_v2 store bucket prefix)
       start_time [] w') as [r' w1'].
  cbn [fst snd] in Hr, Ho, Ho'. subst r'. destruct r as [keys|e].
  - destruct (representable start_time && representable end_time) eqn:Hwin.
    + apply andb_true_iff in Hwin as [Hs He].
      destruct (retrieve_objects_same store bucket keys start_time end_time
                  w1 w1' Hs He) as [Hout Hend].
      split; [exact Hend | right; exact Hout].
    + rewrite !(retrieve_objects_out _ _ _ _ _ _ Hwin).
      split; [reflexivity | left; now split].
  - split; [reflexivity | left; now split].
Qed.

(** C9. For fixed arguments and an unchanged archive, a second run of the
    pipeline over the result of the first leaves [output.csv] identical,
    line for line, to what the first run left, and ends in the same way;
    with a window that pandas can represent, any two runs of
    [retrieve_objects] leave the same table, whatever the file held before
    each, and that table never holds a second header. *)
Theorem main_idempotent (store : s3) (a : args) (w : world) :
  output_csv (fst (main store a (fst (main store a w))))
  = output_csv (fst (main store a w))
  /\ snd (main store a (fst (main store a w))) = snd (main store a w)
  /\ forall bucket keys start_time end_time w',
       representable start_time = true -> representable end_time = true ->
       output_csv (fst (retrieve_objects store bucket keys start_time end_time w'))
       = output_csv (fst (retrieve_objects store bucket keys start_time end_time w))
       /\ (count_headers
             (output_csv (fst (retrieve_objects store bucket keys start_time
                                 end_time w')))
           <= 1)%nat.
Proof.
  destruct (main_same store a (fst (main store a w)) w) as [Hend Hout].
  split; [|split].
  - destruct Hout as [[H _] | H]; exact H.
  - exact Hend.
  - intros bucket keys start_time end_time w' Hs He. split.
    + now apply retrieve_objects_same.
    + now apply retrieve_objects_one_header.
Qed.

Lemma main_idempotent_witness :
  output_csv (fst (retrieve_objects archive "archive" [key_a; key_b] midnight
                     (midnight + 540) fresh))
  = output_csv (fst (retrieve_objects archive "archive" [key_a; key_b] midnight
                       (midnight + 540) stale)).
Proof.
  destruct (main_idempotent archive (run_args midnight (midnight + 540) "ember/trades/")
              stale) as (_ & _ & H).
  apply (H "archive" [key_a; key_b] midnight (midnight + 540) fresh);
    reflexivity.
Defined.

(** The scenario of the specification: one trade at 00:02 in the window
    from 00:00 to 00:09; the second object adds no row and is fetched all
    the same; a second run leaves the same table. *)
Example main_twice :
  output_csv (fst (main archive (run_args midnight (midnight + 540) "ember/trades/")
                     stale))
  = [Header event_columns; Row (event 120 "OrderTradeReportEvent" "100.5")]
  /\ output_csv
       (fst (main archive (run_args midnight (midnight + 540) "ember/trades/")
               (fst (main archive (run_args midnight (midnight + 540) "ember/trades/")
                       stale))))
     = [Header event_columns; Row (event 120 "OrderTradeReportEvent" "100.5")].
Proof. split; vm_compute; reflexivity. Qed.

(** C8 (amended). For every pair of supplied timestamps with
    [windowStart >= windowEnd], [main] returns before any call to the
    object store and leaves [output.csv] untouched; when bucket and prefix
    are given and both timestamps are non-zero, what it reports is the
    invalid-window error. *)
Theorem invalid_window_fails_fast (store : s3) (a : args) (w : world)
    (start_time end_time : Z) :
  arg_start_time a = Some start_time -> arg_end_time a = Some end_time ->
  start_time >= end_time ->
  snd (main store a w) = None
  /\ s3_calls (fst (main store a w)) = s3_calls w
  /\ output_csv (fst (main store a w)) = output_csv w
  /\ (truthy_str (arg_bucket a) = true -> truthy_str (arg_prefix a) = true ->
      start_time <> 0 -> end_time <> 0 ->
      stdout (fst (main store a w)) = (stdout w ++ [EndMustBeGreater])%list).
Proof.
  intros Hs He Hge. unfold main. rewrite Hs, He.
  destruct (truthy_str (arg_bucket a)) eqn:Hb; cbn [negb];
    [|repeat split; discriminate].
  destruct (truthy_str (arg_prefix a)) eqn:Hp; cbn [negb];
    [|repeat split; discriminate].
  destruct (arg_bucket a) as [bucket|]; [|discriminate].
  destruct (arg_prefix a) as [prefix|]; [|discriminate].
  destruct (Z.geb_spec start_time end_time); [|lia].
  cbn [truthy_int].
  destruct (Z.eqb_spec start_time 0), (Z.eqb_spec end_time 0); cbn [negb andb];
    repeat split; trivial; intros; congruence.
Qed.

Lemma invalid_window_fails_fast_witness :
  snd (main archive (run_args 1704070800 1704067200 "ember/trades/") stale) = None
  /\ s3_calls (fst (main archive (run_args 1704070800 1704067200 "ember/trades/") stale))
     = s3_calls stale
  /\ output_csv (fst (main archive (run_args 1704070800 1704067200 "ember/trades/") stale))
     = output_csv stale
  /\ stdout (fst (main archive (run_args 1704070800 1704067200 "ember/trades/") stale))
     = (stdout stale ++ [EndMustBeGreater])%list.
Proof.
  destruct (invalid_window_fails_fast archive
              (run_args 1704070800 1704067200 "ember/trades/") stale
              1704070800 1704067200) as (H1 & H2 & H3 & H4).
  - reflexivity.
  - reflexivity.
  - lia.
  - split; [exact H1 | split; [exact H2 | split; [exact H3|]]].
    apply H4; [reflexivity | reflexivity | lia | lia].
Defined.

(** C8, as stated, fails when one of the timestamps is [0]: with a start of
    [5] and an end of [0] the window is invalid, and what [main] reports is
    that both timestamps must be provided, not the invalid-window error. *)
Lemma invalid_window_fails_fast_counterexample :
  5 >= 0
  /\ stdout (fst (main archive (run_args 5 0 "ember/trades/") fresh)) = [ProvideBoth]
  /\ ~ In EndMustBeGreater
         (stdout (fst (main archive (run_args 5 0 "ember/trades/") fresh))).
Proof.
  split; [lia|]. split; [reflexivity|].
  intros [H | []]. discriminate.
Qed.

(** * Further properties of the code *)

(** ** KeyClock *)

(** X1. The directory part of a key plays no role: a key under any
    directory decodes as its file name does. *)
Theorem get_last_timestamp_under_directory (dir name : string) :
  contains "/" name = false ->
  get_last_timestamp (dir ++ "/" ++ name) = get_last_timestamp name.
Proof.
  intros H. unfold get_last_timestamp, stem.
  change (dir ++ "/" ++ name) with (dir ++ String "/" name).
  now rewrite (basename_under dir name H), (basename_plain name H).
Qed.

Lemma get_last_timestamp_under_directory_witness :
  get_last_timestamp ("ember/trades" ++ "/" ++ "2024-01-01_00-10-00_b.json.gz")
  = get_last_timestamp "2024-01-01_00-10-00_b.json.gz".
Proof.
  apply (get_last_timestamp_under_directory "ember/trades"
           "2024-01-01_00-10-00_b.json.gz").
  reflexivity.
Defined.

Lemma stem_two_extensions (st ext1 ext2 : string) :
  contains "/" st = false ->
  contains "." ext1 = false -> contains "/" ext1 = false ->
  contains "." ext2 = false -> contains "/" ext2 = false ->
  stem (st ++ "." ++ ext1 ++ "." ++ ext2) = st.
Proof.
  intros S0 D1 S1 D2 S2. unfold stem.
  rewrite basename_plain.
  - now apply stem_of_name.
  - repeat (rewrite contains_app; cbn [contains]). now rewrite S0, S1, S2.
Qed.

(** X2. The two trailing extensions play no role: two file names that
    differ in their last two dot-separated pieces only decode alike,
    whatever dots the part before them holds. *)
Theorem get_last_timestamp_ignores_extensions (st ext1 ext2 ext1' ext2' : string) :
  contains "/" st = false ->
  contains "." ext1 = false -> contains "/" ext1 = false ->
  contains "." ext2 = false -> contains "/" ext2 = false ->
  contains "." ext1' = false -> contains "/" ext1' = false ->
  contains "." ext2' = false -> contains "/" ext2' = false ->
  get_last_timestamp (st ++ "." ++ ext1 ++ "." ++ ext2)
  = get_last_timestamp (st ++ "." ++ ext1' ++ "." ++ ext2').
Proof.
  intros. unfold get_last_timestamp. now rewrite !stem_two_extensions.
Qed.

Lemma get_last_timestamp_ignores_extensions_witness :
  get_last_timestamp ("2024-01-01_00-10-00_b.v2" ++ "." ++ "json" ++ "." ++ "gz")
  = get_last_timestamp ("2024-01-01_00-10-00_b.v2" ++ "." ++ "csv" ++ "." ++ "bz2").
Proof.
  apply (get_last_timestamp_ignores_extensions "2024-01-01_00-10-00_b.v2"
           "json" "gz" "csv" "bz2"); reflexivity.
Defined.

Lemma datetime_raises (y mo d h mi s : Z) (e : exn) :
  datetime y mo d h mi s = Raise e -> e = ValueError \/ e = OverflowError.
Proof.
  unfold datetime.
  destruct (negb (forallb fits_c_int [y; mo; d; h; mi; s]));
    [intros H; injection H as <-; now right|].
  destruct (between 1 y 9999 && between 1 mo 12
            && between 1 d (_days_in_month y mo)
            && between 0 h 23 && between 0 mi 59 && between 0 s 59);
    [discriminate|].
  intros H. injection H as <-. now left.
Qed.

(** X3. [get_last_timestamp] fails in two ways only: with [ValueError], or
    with [OverflowError] for a field too large for [datetime]. *)
Theorem get_last_timestamp_raises (key : string) (e : exn) :
  get_last_timestamp key = Raise e -> e = ValueError \/ e = OverflowError.
Proof.
  unfold get_last_timestamp.
  destruct (split "_" (stem key)) as [|date [|time [|disc [|? ?]]]];
    try (intros H; injection H as <-; now left).
  destruct (three_ints date) as [[[y mo] d]|e1] eqn:Hd; cbn [bind].
  - destruct (three_ints time) as [[[h mi] s]|e2] eqn:Ht; cbn [bind].
    + destruct (datetime y mo d h mi s) as [dt|e3] eqn:Hdt; cbn [bind];
        [discriminate|].
      intros H. injection H as <-. now apply datetime_raises in Hdt.
    + intros H. injection H as <-. left. now apply three_ints_raises in Ht.
  - intros H. injection H as <-. left. now apply three_ints_raises in Hd.
Qed.

Lemma get_last_timestamp_raises_witness :
  OverflowError = ValueError \/ OverflowError = OverflowError.
Proof.
  apply (get_last_timestamp_raises "99999999999-01-01_00-00-00_a.json.gz").
  vm_compute. reflexivity.
Defined.

Lemma datetime_returns (y mo d h mi s : Z) (dt : datetime_t) :
  datetime y mo d h mi s = Return dt ->
  dt = mk_datetime y mo d h mi s
  /\ 1 <= y <= 9999 /\ 1 <= mo <= 12 /\ 1 <= d <= _days_in_month y mo
  /\ 0 <= h <= 23 /\ 0 <= mi <= 59 /\ 0 <= s <= 59.
Proof.
  unfold datetime.
  destruct (negb (forallb fits_c_int [y; mo; d; h; mi; s])); [discriminate|].
  destruct (between 1 y 9999 && between 1 mo 12
            && between 1 d (_days_in_month y mo)
            && between 0 h 23 && between 0 mi 59 && between 0 s 59) eqn:E;
    [|discriminate].
  intros H. injection H as <-. unfold between in E.
  rewrite !andb_true_iff, !Z.leb_le in E. intuition.
Qed.

Lemma get_last_timestamp_returns (key : string) (t : Z) :
  get_last_timestamp key = Return t ->
  exists y mo d h mi s dt,
    datetime y mo d h mi s = Return dt /\ t = utc_timestamp dt.
Proof.
  unfold get_last_timestamp.
  destruct (split "_" (stem key)) as [|date [|time [|disc [|? ?]]]];
    try discriminate.
  destruct (three_ints date) as [[[y mo] d]|]; cbn [bind]; [|discriminate].
  destruct (three_ints time) as [[[h mi] s]|]; cbn [bind]; [|discriminate].
  destruct (datetime y mo d h mi s) as [dt|] eqn:Hdt; cbn [bind]; [|discriminate].
  intros H. injection H as <-. now exists y, mo, d, h, mi, s, dt.
Qed.

(** The calendar arithmetic of [datetime]. *)

Lemma _days_before_year_succ (y : Z) :
  _days_before_year (y + 1)
  = _days_before_year y + 365 + (if _is_leap y then 1 else 0).
Proof.
  unfold _days_before_year, _is_leap. cbv zeta.
  replace (y + 1 - 1) with y by lia.
  destruct (Z.eqb_spec (y mod 4) 0), (Z.eqb_spec (y mod 100) 0),
    (Z.eqb_spec (y mod 400) 0); cbn [negb andb orb]; euclid.
Qed.

Lemma _days_before_year_mono (y y' : Z) :
  y <= y' -> _days_before_year y <= _days_before_year y'.
Proof. unfold _days_before_year. cbv zeta. intros H. euclid. Qed.

Lemma _days_before_month_succ (y mo : Z) :
  1 <= mo <= 12 ->
  0 <= _days_before_month y mo
  /\ 28 <= _days_in_month y mo
  /\ _days_before_month y mo + _days_in_month y mo
     = (if mo =? 12 then 365 + (if _is_leap y then 1 else 0)
        else _days_before_month y (mo + 1)).
Proof.
  intros H. unfold _days_before_month, _days_in_month.
  pattern mo. apply (twelve_months mo); trivial; simpl;
    destruct (_is_leap y); simpl; lia.
Qed.

Lemma _days_before_month_mono (y mo mo' : Z) :
  1 <= mo -> mo < mo' -> mo' <= 12 ->
  _days_before_month y mo + _days_in_month y mo <= _days_before_month y mo'.
Proof.
  intros H1 H2 H3.
  assert (Hn : exists n : nat, mo' = mo + 1 + Z.of_nat n)
    by (exists (Z.to_nat (mo' - mo - 1)); lia).
  destruct Hn as [n ->]. induction n as [|n IH].
  - destruct (_days_before_month_succ y mo) as (_ & _ & E); [lia|].
    destruct (Z.eqb_spec mo 12); [lia|]. rewrite Z.add_0_r. lia.
  - assert (IH' := IH ltac:(lia) ltac:(lia)).
    destruct (_days_before_month_succ y (mo + 1 + Z.of_nat n)) as (_ & Hd & E);
      [lia|].
    destruct (Z.eqb_spec (mo + 1 + Z.of_nat n) 12); [lia|].
    replace (mo + 1 + Z.of_nat (S n)) with (mo + 1 + Z.of_nat n + 1) by lia.
    lia.
Qed.

Lemma _ymd2ord_in_year (y mo d : Z) :
  1 <= mo <= 12 -> 1 <= d <= _days_in_month y mo ->
  _days_before_year y < _ymd2ord y mo d <= _days_before_year (y + 1).
Proof.
  intros Hm Hd. unfold _ymd2ord. rewrite _days_before_year_succ.
  destruct (_days_before_month_succ y mo Hm) as (H0 & _ & E).
  destruct (Z.eqb_spec mo 12) as [->|Hne].
  - lia.
  - destruct (_days_before_month_succ y 12) as (_ & _ & E12); [lia|].
    simpl (12 =? 12) in E12. cbv iota in E12.
    pose proof (_days_before_month_mono y mo 12 ltac:(lia) ltac:(lia) ltac:(lia)).
    assert (28 <= _days_in_month y 12)
      by (destruct (_days_before_month_succ y 12) as (_ & ? & _); lia).
    lia.
Qed.

Lemma _ymd2ord_mono (y mo d y' mo' d' : Z) :
  1 <= mo <= 12 -> 1 <= d <= _days_in_month y mo ->
  1 <= mo' <= 12 -> 1 <= d' <= _days_in_month y' mo' ->
  y < y' \/ (y = y' /\ (mo < mo' \/ (mo = mo' /\ d < d'))) ->
  _ymd2ord y mo d < _ymd2ord y' mo' d'.
Proof.
  intros Hm Hd Hm' Hd' [Hy | [<- [Hmo | [<- Hday]]]].
  - pose proof (_ymd2ord_in_year y mo d Hm Hd).
    pose proof (_ymd2ord_in_year y' mo' d' Hm' Hd').
    pose proof (_days_before_year_mono (y + 1) y' ltac:(lia)). lia.
  - unfold _ymd2ord.
    pose proof (_days_before_month_mono y mo mo' ltac:(lia) Hmo ltac:(lia)). lia.
  - unfold _ymd2ord. lia.
Qed.

(** X4. The key clock keeps the order of time: of two dates and times that
    [datetime] accepts, the one that is earlier, field by field, has the
    strictly smaller timestamp; so distinct instants never share one. *)
Theorem utc_timestamp_increasing (y mo d h mi s y' mo' d' h' mi' s' : Z)
    (a b : datetime_t) :
  datetime y mo d h mi s = Return a ->
  datetime y' mo' d' h' mi' s' = Return b ->
  earlier a b ->
  utc_timestamp a < utc_timestamp b.
Proof.
  intros Ha Hb Hlt.
  apply datetime_returns in Ha as (-> & Hy & Hm & Hd & Hh & Hmi & Hs).
  apply datetime_returns in Hb as (-> & Hy' & Hm' & Hd' & Hh' & Hmi' & Hs').
  unfold earlier in Hlt. unfold utc_timestamp.
  cbn [dt_year dt_month dt_day dt_hour dt_minute dt_second] in *.
  assert (Hdate : (y < y' \/ (y = y' /\ (mo < mo' \/ (mo = mo' /\ d < d'))))
                  \/ (y = y' /\ mo = mo' /\ d = d'
                      /\ h * 3600 + mi * 60 + s < h' * 3600 + mi' * 60 + s'))
    by lia.
  destruct Hdate as [Hdate | (<- & <- & <- & Hsec)].
  - pose proof (_ymd2ord_mono y mo d y' mo' d' Hm Hd Hm' Hd' Hdate). lia.
  - lia.
Qed.

Lemma utc_timestamp_increasing_witness :
  utc_timestamp (mk_datetime 2023 12 31 23 59 59)
  < utc_timestamp (mk_datetime 2024 1 1 0 0 0).
Proof.
  apply (utc_timestamp_increasing 2023 12 31 23 59 59 2024 1 1 0 0 0).
  - reflexivity.
  - reflexivity.
  - left. simpl. lia.
Defined.

(** X5. Every timestamp that [get_last_timestamp] returns lies between
    0001-01-01T00:00:00Z and 9999-12-31T23:59:59Z. *)
Theorem get_last_timestamp_range (key : string) (t : Z) :
  get_last_timestamp key = Return t ->
  - 62135596800 <= t <= 253402300799.
Proof.
  intros H. apply get_last_timestamp_returns in H
    as (y & mo & d & h & mi & s & dt & Hdt & ->).
  apply datetime_returns in Hdt as (-> & Hy & Hm & Hd & Hh & Hmi & Hs).
  unfold utc_timestamp. cbn [dt_year dt_month dt_day dt_hour dt_minute dt_second].
  pose proof (_ymd2ord_in_year y mo d Hm Hd) as Hord.
  pose proof (_days_before_year_mono 1 y ltac:(lia)) as Hlo.
  pose proof (_days_before_year_mono (y + 1) 10000 ltac:(lia)) as Hhi.
  change (_days_before_year 1) with 0 in Hlo.
  change (_days_before_year 10000) with 3652059 in Hhi.
  change (_ymd2ord 1970 1 1) with 719163.
  lia.
Qed.

Lemma get_last_timestamp_range_witness :
  - 62135596800 <= 253402300799 <= 253402300799.
Proof.
  apply (get_last_timestamp_range "9999-12-31_23-59-59_z.json.gz").
  vm_compute. reflexivity.
Defined.

Lemma conventional_name_parses (disc ext1 ext2 : string) (y mo d h mi s : Z) :
  field_ok pad4 y = true -> field_ok pad2 mo = true -> field_ok pad2 d = true ->
  field_ok pad2 h = true -> field_ok pad2 mi = true -> field_ok pad2 s = true ->
  contains "_" disc = false -> contains "/" disc = false ->
  contains "." ext1 = false -> contains "/" ext1 = false ->
  contains "." ext2 = false -> contains "/" ext2 = false ->
  get_last_timestamp (conventional_name y mo d h mi s disc ext1 ext2)
  = (dt <- datetime y mo d h mi s ;; Return (utc_timestamp dt)).
Proof.
  intros Fy Fmo Fd Fh Fmi Fs Udisc Sdisc D1 S1 D2 S2.
  pose proof (field_ok_inv _ _ Fy) as (_ & _ & Uy & Sy).
  pose proof (field_ok_inv _ _ Fmo) as (_ & _ & Umo & Smo).
  pose proof (field_ok_inv _ _ Fd) as (_ & _ & Ud & Sd).
  pose proof (field_ok_inv _ _ Fh) as (_ & _ & Uh & Sh).
  pose proof (field_ok_inv _ _ Fmi) as (_ & _ & Umi & Smi).
  pose proof (field_ok_inv _ _ Fs) as (_ & _ & Us & Ss).
  assert (Sdate : contains "/" (date_token y mo d) = false)
    by (apply fields_without; trivial; discriminate).
  assert (Stime : contains "/" (time_token h mi s) = false)
    by (apply fields_without; trivial; discriminate).
  assert (Udate : contains "_" (date_token y mo d) = false)
    by (apply fields_without; trivial; discriminate).
  assert (Utime : contains "_" (time_token h mi s) = false)
    by (apply fields_without; trivial; discriminate).
  unfold get_last_timestamp, conventional_name.
  rewrite stem_two_extensions; trivial.
  2: { repeat (rewrite contains_app; cbn [contains]).
       now rewrite Sdate, Stime, Sdisc. }
  change (date_token y mo d ++ "_" ++ time_token h mi s ++ "_" ++ disc)
    with (date_token y mo d ++ String "_" (time_token h mi s ++ String "_" disc)).
  rewrite !split_app_sep, !split_without by assumption.
  cbn [app]. unfold date_token, time_token.
  rewrite !three_ints_fields by assumption. reflexivity.
Qed.

(** X20. A name that follows the convention in form but spells no
    calendar date or no time of day (a month 13, a 30th of February, an
    hour 24) is refused with [ValueError]. *)
Theorem get_last_timestamp_rejects_impossible (disc ext1 ext2 : string)
    (y mo d h mi s : Z) :
  0 <= y < 10000 -> 0 <= mo < 100 -> 0 <= d < 100 ->
  0 <= h < 100 -> 0 <= mi < 100 -> 0 <= s < 100 ->
  ~ (valid_date y mo d /\ valid_time h mi s) ->
  contains "_" disc = false -> contains "/" disc = false ->
  contains "." ext1 = false -> contains "/" ext1 = false ->
  contains "." ext2 = false -> contains "/" ext2 = false ->
  get_last_timestamp (conventional_name y mo d h mi s disc ext1 ext2)
  = Raise ValueError.
Proof.
  intros Hy Hmo Hd Hh Hmi Hs Hbad Udisc Sdisc D1 S1 D2 S2.
  rewrite conventional_name_parses; trivial;
    try (apply pad2_ok; lia); try (apply pad4_ok; lia).
  destruct (datetime y mo d h mi s) as [dt|e] eqn:Hdt; cbn [bind].
  - exfalso. apply Hbad.
    apply datetime_returns in Hdt as (_ & Ry & Rmo & Rd & Rh & Rmi & Rs).
    rewrite _days_in_month_length in Rd by assumption.
    unfold valid_date, valid_time. now repeat split.
  - f_equal. unfold datetime in Hdt.
    assert (Hfit : forallb fits_c_int [y; mo; d; h; mi; s] = true).
    { unfold fits_c_int. simpl. rewrite !andb_true_iff, !Z.leb_le. lia. }
    rewrite Hfit in Hdt. cbn [negb] in Hdt.
    destruct (between 1 y 9999 && between 1 mo 12
              && between 1 d (_days_in_month y mo)
              && between 0 h 23 && between 0 mi 59 && between 0 s 59);
      congruence.
Qed.

Lemma get_last_timestamp_rejects_impossible_witness :
  get_last_timestamp (conventional_name 2023 2 29 12 0 0 "a" "json" "gz")
  = Raise ValueError.
Proof.
  apply (get_last_timestamp_rejects_impossible "a" "json" "gz" 2023 2 29 12 0 0);
    try lia; try reflexivity.
  unfold valid_date. simpl. lia.
Defined.

(** ** KeyLister *)

Lemma scan_contents_returns (start_time : Z) (objs keys keys' : list string) :
  scan_contents objs start_time keys = Return keys' -> Forall decodable objs.
Proof.
  revert keys. induction objs as [|key objs IH]; intros keys H; [constructor|].
  cbn [scan_contents] in H.
  destruct (get_last_timestamp key) as [t|] eqn:Hk; cbn [bind] in H;
    [|discriminate].
  constructor; [now exists t|].
  destruct (t <? start_time); eapply IH; eauto.
Qed.

Lemma list_loop_returns (bucket prefix : string) (start_time : Z) (answers : listing) :
  forall keys keys' w,
    fst (list_loop bucket prefix answers start_time keys w) = Return keys' ->
    every_page_lists answers = true /\ Forall decodable (listed_keys answers).
Proof.
  induction answers as [|contents|contents next IH]; intros keys keys' w H;
    cbn [list_loop] in H.
  - discriminate.
  - destruct contents as [objs|]; cbn [page_contents] in H; [|discriminate].
    destruct (scan_contents objs start_time keys) as [ks|] eqn:Hs; [|discriminate].
    split; [reflexivity|]. now apply scan_contents_returns in Hs.
  - destruct contents as [objs|]; cbn [page_contents] in H; [|discriminate].
    destruct (scan_contents objs start_time keys) as [ks|] eqn:Hs; [|discriminate].
    apply IH in H as [Hp Hd]. apply scan_contents_returns in Hs.
    split; [exact Hp|]. cbn [listed_keys contents_keys].
    apply Forall_app. now split.
Qed.

(** X6. [get_s3_keys] returns a key list exactly when every call is
    answered by a page that carries ['Contents'] and every listed key is
    decodable; the list is then the listed keys that do not end before the
    window start, in listing order. In every other case it raises. *)
Theorem get_s3_keys_returns_iff (store : s3) (bucket prefix : string)
    (start_time : Z) (w : world) (keys : list string) :
  fst (get_s3_keys store bucket prefix start_time w) = Return keys
  <-> every_page_lists (list_objects_v2 store bucket prefix) = true
      /\ Forall decodable (listed_keys (list_objects_v2 store bucket prefix))
      /\ keys = filter (ends_in_window start_time)
                  (listed_keys (list_objects_v2 store bucket prefix)).
Proof.
  unfold get_s3_keys. split.
  - intros H. destruct (list_loop_returns _ _ _ _ _ _ _ H) as [Hp Hd].
    rewrite (list_loop_lists bucket prefix start_time _ Hp Hd) in H.
    injection H as <-. now repeat split.
  - intros (Hp & Hd & ->).
    now rewrite (list_loop_lists bucket prefix start_time _ Hp Hd).
Qed.

Lemma get_s3_keys_returns_iff_witness :
  every_page_lists (list_objects_v2 archive "archive" "ember/trades/") = true
  /\ Forall decodable (listed_keys (list_objects_v2 archive "archive" "ember/trades/"))
  /\ [key_b; key_c; key_late]
     = filter (ends_in_window (midnight + 60))
         (listed_keys (list_objects_v2 archive "archive" "ember/trades/")).
Proof.
  apply (get_s3_keys_returns_iff archive "archive" "ember/trades/"
           (midnight + 60) fresh [key_b; key_c; key_late]).
  vm_compute. reflexivity.
Defined.

Lemma list_loop_calls (bucket prefix : string) (start_time : Z) (answers : listing) :
  forall keys w,
    exists n,
      (1 <= n <= page_count answers)%nat
      /\ s3_calls (snd (list_loop bucket prefix answers start_time keys w))
         = (s3_calls w ++ repeat (ListObjectsV2 bucket prefix) n)%list
      /\ (forall keys',
            fst (list_loop bucket prefix answers start_time keys w) = Return keys' ->
            n = page_count answers).
Proof.
  induction answers as [|contents|contents next IH]; intros keys w;
    cbn [list_loop page_count].
  - exists 1%nat. repeat split; trivial; lia.
  - exists 1%nat. destruct (page_contents _); [destruct (scan_contents _ _ _)|];
      repeat split; trivial; lia.
  - destruct (page_contents (MorePages contents next)) as [objs|];
      [destruct (scan_contents objs start_time keys) as [ks|]|].
    + destruct (IH ks (record_call (ListObjectsV2 bucket prefix) w))
        as (n & Hn & Hcalls & Hret).
      exists (S n). split; [lia|]. split.
      * rewrite Hcalls. cbn [record_call s3_calls repeat].
        now rewrite <- app_assoc.
      * intros keys' H. now rewrite (Hret keys' H).
    + exists 1%nat. repeat split; trivial; try lia. discriminate.
    + exists 1%nat. repeat split; trivial; try lia. discriminate.
Qed.

(** X7. [get_s3_keys] does nothing but call [list_objects_v2] for its
    bucket and prefix: at least once, at most once per page of the listing,
    and exactly once per page when it returns. It fetches no object, prints
    nothing and leaves [output.csv] alone. *)
Theorem get_s3_keys_calls (store : s3) (bucket prefix : string)
    (start_time : Z) (w : world) :
  exists n,
    (1 <= n <= page_count (list_objects_v2 store bucket prefix))%nat
    /\ s3_calls (snd (get_s3_keys store bucket prefix start_time w))
       = (s3_calls w ++ repeat (ListObjectsV2 bucket prefix) n)%list
    /\ (forall keys,
          fst (get_s3_keys store bucket prefix start_time w) = Return keys ->
          n = page_count (list_objects_v2 store bucket prefix))
    /\ output_csv (snd (get_s3_keys store bucket prefix start_time w)) = output_csv w
    /\ stdout (snd (get_s3_keys store bucket prefix start_time w)) = stdout w.
Proof.
  unfold get_s3_keys.
  destruct (list_loop_calls bucket prefix start_time
              (list_objects_v2 store bucket prefix) [] w) as (n & Hn & Hc & Hr).
  destruct (list_loop_output bucket prefix start_time
              (list_objects_v2 store bucket prefix) [] w) as [Ho Hs].
  exists n. repeat split; trivial; lia.
Qed.

Lemma get_s3_keys_calls_witness :
  exists n,
    (1 <= n <= 2)%nat
    /\ s3_calls (snd (get_s3_keys archive "archive" "ember/trades/" midnight stale))
       = repeat (ListObjectsV2 "archive" "ember/trades/") n.
Proof.
  destruct (get_s3_keys_calls archive "archive" "ember/trades/" midnight stale)
    as (n & Hn & Hc & _).
  exists n. split; [exact Hn | exact Hc].
Defined.

Lemma list_loop_call_fails (bucket prefix : string) (start_time : Z)
    (pages : list (list string)) (rest : listing) :
  Forall decodable (List.concat pages) -> call_fails rest = true ->
  forall keys w,
    fst (list_loop bucket prefix (after_pages pages rest) start_time keys w)
    = Raise ClientError.
Proof.
  intros Hd Hrest. induction pages as [|objs pages IH]; intros keys w.
  - simpl. destruct rest; try discriminate; reflexivity.
  - simpl in Hd. apply Forall_app in Hd as [Hobjs Hpages].
    cbn [after_pages list_loop page_contents].
    rewrite (scan_contents_decodable _ _ _ Hobjs). now apply IH.
Qed.

(** X8. A listing call that fails is fatal: when [list_objects_v2] raises
    after any number of pages of decodable keys, [get_s3_keys] raises
    [ClientError], the keys gathered so far are lost, [main] ends with that
    error and [output.csv] is left as it was. *)
Theorem listing_failure_is_fatal (store : s3) (bucket prefix : string)
    (start_time end_time : Z) (w : world)
    (pages : list (list string)) (rest : listing) :
  list_objects_v2 store bucket prefix = after_pages pages rest ->
  Forall decodable (List.concat pages) ->
  call_fails rest = true ->
  bucket <> "" -> prefix <> "" -> start_time <> 0 -> end_time <> 0 ->
  start_time < end_time ->
  fst (get_s3_keys store bucket prefix start_time w) = Raise ClientError
  /\ snd (main store (mk_args (Some start_time) (Some end_time)
                        (Some bucket) (Some prefix)) w) = Some ClientError
  /\ output_csv (fst (main store (mk_args (Some start_time) (Some end_time)
                                    (Some bucket) (Some prefix)) w))
     = output_csv w.
Proof.
  intros Hl Hd Hrest Hb Hp Hs He Hlt.
  assert (Hk : fst (get_s3_keys store bucket prefix start_time w) = Raise ClientError).
  { unfold get_s3_keys. rewrite Hl. now apply list_loop_call_fails. }
  split; [exact Hk|].
  unfold main. cbn [arg_bucket arg_prefix arg_start_time arg_end_time
    truthy_str truthy_int].
  apply String.eqb_neq in Hb, Hp. rewrite Hb, Hp.
  apply Z.eqb_neq in Hs, He. rewrite Hs, He. cbn [negb andb].
  destruct (Z.geb_spec start_time end_time); [lia|].
  pose proof (list_loop_output bucket prefix start_time
                (list_objects_v2 store bucket prefix) [] w) as [Ho _].
  unfold get_s3_keys in *.
  destruct (list_loop bucket prefix (list_objects_v2 store bucket prefix)
              start_time [] w) as [r w'].
  simpl in Hk, Ho. subst r. now split.
Qed.

Lemma listing_failure_is_fatal_witness :
  fst (get_s3_keys archive "vault" "ember/trades/" midnight stale) = Raise ClientError
  /\ snd (main archive (mk_args (Some midnight) (Some (midnight + 540))
                          (Some "vault") (Some "ember/trades/")) stale)
     = Some ClientError
  /\ output_csv (fst (main archive (mk_args (Some midnight) (Some (midnight + 540))
                                      (Some "vault") (Some "ember/trades/")) stale))
     = output_csv stale.
Proof.
  apply (listing_failure_is_fatal archive "vault" "ember/trades/" midnight
           (midnight + 540) stale [] ListFails);
    try reflexivity; try discriminate; try constructor.
Defined.

(** ** RecordFilter *)

Lemma select_map (df : DataFrame) (p : list cell -> bool) :
  rows (select df (map p (rows df))) = filter p (rows df).
Proof.
  unfold select. cbn [rows]. induction (rows df) as [|r rs IH]; [reflexivity|].
  cbn [map combine filter snd]. destruct (p r); cbn [map fst]; now rewrite IH.
Qed.

Lemma mapM_total {A B : Type} (f : A -> result B) (g : A -> B) (l : list A)
    (bs : list B) :
  (forall a b, f a = Return b -> g a = b) ->
  mapM f l = Return bs -> bs = map g l.
Proof.
  intros Hfg. revert bs. induction l as [|x l IH]; intros bs H; cbn [mapM] in H.
  - now injection H as <-.
  - bind_inv H as y Ey. bind_inv H as ys Eys. injection H as <-.
    cbn [map]. now rewrite (Hfg x y Ey), (IH ys).
Qed.

Lemma combine_map_both {A : Type} (a b : A -> bool) (l : list A) :
  map (fun p => fst p && snd p) (combine (map a l) (map b l))
  = map (fun x => a x && b x) l.
Proof. induction l as [|x l IH]; [reflexivity|]. cbn. now rewrite IH. Qed.

Lemma filter_filter {A : Type} (p q : A -> bool) (l : list A) :
  filter q (filter p l) = filter (fun x => p x && q x) l.
Proof.
  induction l as [|x l IH]; [reflexivity|]. cbn [filter].
  destruct (p x); cbn [filter andb]; [destruct (q x)|]; now rewrite IH.
Qed.

Lemma compare_time_returns (op : Z -> Z -> bool) (t : Z) (c : cell) (b : bool) :
  compare_time op c t = Return b ->
  match c with Time z => op z t | _ => false end = b.
Proof. destruct c; simpl; congruence. Qed.

Lemma iloc_last_returns (series : list cell) (c : cell) :
  iloc_last series = Return c -> c = last series Null.
Proof. destruct series; simpl; congruence. Qed.

(** X9. When the filter returns for a frame, one of three things has
    happened: the last record lies before the window and the file is left
    alone; or the first record lies after the window, the loop is told to
    stop and the file is left alone; or the file is extended by exactly the
    records of the frame, in their order, whose [Type] is the wanted one
    and whose [Timestamp] lies in the closed window: none of them is
    missed. *)
Theorem filter_frame_exact (df : DataFrame) (start_time end_time : Z)
    (f f' : list line) (fl : flow) :
  filter_frame df start_time end_time f = Return (fl, f') ->
  (last_record_before df start_time = true /\ fl = Next /\ f' = f)
  \/ (last_record_before df start_time = false
      /\ (exists t, first_record_time df = Some t /\ end_time < t)
      /\ fl = Break /\ f' = f)
  \/ (fl = Next
      /\ f' = append (mk_frame (columns df)
                        (filter (keep_row df start_time end_time) (rows df))) f).
Proof.
  unfold filter_frame. intros H.
  bind_inv H as ts Ets. bind_inv H as last_ts Elast. bind_inv H as before Ebefore.
  apply iloc_last_returns in Elast. apply compare_time_returns in Ebefore.
  assert (Hbefore : last_record_before df start_time = before).
  { unfold last_record_before. rewrite Ets, <- Elast.
    now destruct last_ts. }
  destruct before; [injection H as <- <-; now left|].
  bind_inv H as first_ts Efirst. bind_inv H as after Eafter.
  destruct after.
  { injection H as <- <-. right; left. split; [exact Hbefore|].
    split; [|now split].
    apply compare_time_true in Eafter as (t & -> & Ht).
    exists t. unfold first_record_time. rewrite Ets.
    destruct ts as [|c ts]; [discriminate|]. injection Efirst as ->.
    split; [reflexivity|]. now apply Z.gtb_lt in Ht. }
  bind_inv H as ty Ety. bind_inv H as ts1 Ets1. bind_inv H as ge Ege.
  bind_inv H as le Ele. injection H as <- <-.
  right; right. split; [reflexivity|]. f_equal. unfold select at 1.
  cbn [columns]. f_equal.
  apply getitem_inv in Ety as (iy & Hiy & ->).
  rewrite map_map in *.
  set (typed := select df (map (fun r => eq_str wanted_type (nth iy r Null)) (rows df))) in *.
  apply getitem_inv in Ets1 as (it & Hit & ->).
  change (columns typed) with (columns df) in Hit.
  rewrite (mapM_total _ (fun c => match c with Time z => z >=? start_time | _ => false end)
             _ _ (compare_time_returns Z.geb start_time) Ege).
  rewrite (mapM_total _ (fun c => match c with Time z => z <=? end_time | _ => false end)
             _ _ (compare_time_returns Z.leb end_time) Ele).
  rewrite !map_map, combine_map_both.
  change (map fst (filter snd (combine (rows typed) ?m)))
    with (rows (select typed m)).
  rewrite select_map. unfold typed. rewrite select_map, filter_filter.
  apply filter_ext. intros r. unfold keep_row. rewrite Hiy, Hit.
  f_equal. unfold time_within. destruct (nth it r Null); trivial.
  now rewrite Z.geb_leb.
Qed.

Lemma filter_frame_exact_witness :
  (last_record_before frame_a (nanoseconds midnight) = true
   /\ Next = Next
   /\ [Header event_columns; Row (event 120 "OrderTradeReportEvent" "100.5")] = [])
  \/ (last_record_before frame_a (nanoseconds midnight) = false
      /\ (exists t, first_record_time frame_a = Some t
                    /\ nanoseconds (midnight + 540) < t)
      /\ Next = Break
      /\ [Header event_columns; Row (event 120 "OrderTradeReportEvent" "100.5")] = [])
  \/ (Next = Next
      /\ [Header event_columns; Row (event 120 "OrderTradeReportEvent" "100.5")]
         = append (mk_frame (columns frame_a)
                     (filter (keep_row frame_a (nanoseconds midnight)
                                (nanoseconds (midnight + 540)))
                        (rows frame_a))) []).
Proof.
  apply (filter_frame_exact frame_a (nanoseconds midnight)
           (nanoseconds (midnight + 540)) []).
  vm_compute. reflexivity.
Defined.

(** ** Pipeline *)

Lemma drain_app_stops (store : s3) (bucket : string) (start_time end_time : Z)
    (ks1 ks2 : list string) (w w1 : world) (e : loop_end) :
  drain store bucket ks1 start_time end_time w = (w1, e) -> e <> Exhausted ->
  drain store bucket (ks1 ++ ks2) start_time end_time w = (w1, e).
Proof.
  revert w. induction ks1 as [|key ks1 IH]; intros w H He.
  - simpl in H. injection H as _ <-. congruence.
  - cbn [drain app] in *.
    destruct (turn store bucket key start_time end_time w) as [w' [e'|]].
    + exact H.
    + now apply IH.
Qed.

(** A key whose turn changes nothing in the file and lets the loop go on
    can be left out of the keys: the table and the end of the run are the
    same. *)
Lemma drain_without (store : s3) (bucket : string) (start_time end_time : Z)
    (before after : list string) (key : string) (w : world) :
  (forall w0,
     same_output (fst (turn store bucket key start_time end_time w0)) w0
     /\ snd (turn store bucket key start_time end_time w0) = None) ->
  same_output (fst (drain store bucket (before ++ key :: after) start_time end_time w))
              (fst (drain store bucket (before ++ after) start_time end_time w))
  /\ snd (drain store bucket (before ++ key :: after) start_time end_time w)
     = snd (drain store bucket (before ++ after) start_time end_time w).
Proof.
  intros Hkey.
  destruct (drain store bucket before start_time end_time w) as [w1 e] eqn:Hb.
  destruct e as [| |x].
  - rewrite !(drain_app _ _ _ _ _ _ _ _ Hb). cbn [drain].
    destruct (Hkey w1) as [Ho Hn].
    destruct (turn store bucket key start_time end_time w1) as [w2 o].
    cbn [fst snd] in Ho, Hn. subst o. now apply drain_same.
  - rewrite !(drain_app_stops _ _ _ _ _ _ _ _ _ Hb) by discriminate. now split.
  - rewrite !(drain_app_stops _ _ _ _ _ _ _ _ _ Hb) by discriminate. now split.
Qed.

Lemma retrieve_objects_without (store : s3) (bucket : string)
    (start_time end_time : Z) (before after : list string) (key : string)
    (w : world) :
  (forall w0,
     same_output (fst (turn store bucket key (nanoseconds start_time)
                         (nanoseconds end_time) w0)) w0
     /\ snd (turn store bucket key (nanoseconds start_time)
               (nanoseconds end_time) w0) = None) ->
  output_csv (fst (retrieve_objects store bucket (before ++ key :: after)
                     start_time end_time w))
  = output_csv (fst (retrieve_objects store bucket (before ++ after)
                       start_time end_time w))
  /\ snd (retrieve_objects store bucket (before ++ key :: after)
            start_time end_time w)
     = snd (retrieve_objects store bucket (before ++ after) start_time end_time w).
Proof.
  intros Hkey.
  destruct (representable start_time && representable end_time) eqn:Hwin.
  - apply andb_true_iff in Hwin as [Hs He].
    rewrite !(retrieve_objects_in _ _ _ _ _ _ Hs He).
    destruct (drain_without store bucket (nanoseconds start_time)
                (nanoseconds end_time) before after key (set_output [] w) Hkey)
      as [Ho Hend].
    destruct (drain store bucket (before ++ key :: after) (nanoseconds start_time)
                (nanoseconds end_time) (set_output [] w)) as [w1 e1],
      (drain store bucket (before ++ after) (nanoseconds start_time)
         (nanoseconds end_time) (set_output [] w)) as [w2 e2].
    cbn [fst snd] in Ho, Hend. subst e2. destruct e1; now split.
  - rewrite !(retrieve_objects_out _ _ _ _ _ _ Hwin). now split.
Qed.

(** X10. A key whose fetch fails, or whose content is no line-delimited
    JSON, is isolated: the run leaves the same table and ends in the same
    way as the run over the other keys alone. *)
Theorem retrieve_objects_isolates_key (store : s3) (bucket : string)
    (start_time end_time : Z) (before after : list string) (key : string)
    (w : world) :
  get_object store bucket key = None
  \/ get_object store bucket key = Some BadJson ->
  output_csv (fst (retrieve_objects store bucket (before ++ key :: after)
                     start_time end_time w))
  = output_csv (fst (retrieve_objects store bucket (before ++ after)
                       start_time end_time w))
  /\ snd (retrieve_objects store bucket (before ++ key :: after)
            start_time end_time w)
     = snd (retrieve_objects store bucket (before ++ after) start_time end_time w).
Proof.
  intros Hget. apply retrieve_objects_without. intros w0.
  unfold turn, try_body, fetch, same_output.
  destruct Hget as [-> | ->]; now split.
Qed.

Lemma retrieve_objects_isolates_key_witness :
  output_csv (fst (retrieve_objects archive "archive" ([key_a] ++ key_denied :: [key_c])
                     midnight (midnight + 1200) stale))
  = output_csv (fst (retrieve_objects archive "archive" ([key_a] ++ [key_c])
                       midnight (midnight + 1200) stale))
  /\ snd (retrieve_objects archive "archive" ([key_a] ++ key_denied :: [key_c])
            midnight (midnight + 1200) stale)
     = snd (retrieve_objects archive "archive" ([key_a] ++ [key_c])
              midnight (midnight + 1200) stale).
Proof.
  apply (retrieve_objects_isolates_key archive "archive" midnight
           (midnight + 1200) [key_a] [key_c] key_denied stale).
  left. reflexivity.
Defined.

(** X11. An object whose last record lies before the window start adds
    nothing and stops nothing: the run leaves the same table and ends in
    the same way as the run over the other keys alone. *)
Theorem retrieve_objects_skips_early_object (store : s3) (bucket : string)
    (start_time end_time : Z) (before after : list string) (key : string)
    (w : world) (df : DataFrame) :
  get_object store bucket key = Some (JsonLines df) ->
  last_record_before df (nanoseconds start_time) = true ->
  output_csv (fst (retrieve_objects store bucket (before ++ key :: after)
                     start_time end_time w))
  = output_csv (fst (retrieve_objects store bucket (before ++ after)
                       start_time end_time w))
  /\ snd (retrieve_objects store bucket (before ++ key :: after)
            start_time end_time w)
     = snd (retrieve_objects store bucket (before ++ after) start_time end_time w).
Proof.
  intros Hget Hlast. apply retrieve_objects_without. intros w0.
  unfold turn, try_body, fetch, same_output, filter_frame. rewrite Hget.
  cbn [bind read_frame]. unfold last_record_before in Hlast.
  destruct (getitem df "Timestamp") as [ts|]; [|discriminate]. cbn [bind].
  destruct ts as [|c ts]; [discriminate|]. cbn [iloc_last bind].
  destruct (last (c :: ts) Null) as [| |t]; try discriminate.
  cbn [compare_time bind]. rewrite Hlast. now split.
Qed.

Lemma retrieve_objects_skips_early_object_witness :
  output_csv (fst (retrieve_objects archive "archive" ([] ++ key_a :: [key_b; key_c])
                     (midnight + 400) (midnight + 1200) stale))
  = output_csv (fst (retrieve_objects archive "archive" ([] ++ [key_b; key_c])
                       (midnight + 400) (midnight + 1200) stale))
  /\ snd (retrieve_objects archive "archive" ([] ++ key_a :: [key_b; key_c])
            (midnight + 400) (midnight + 1200) stale)
     = snd (retrieve_objects archive "archive" ([] ++ [key_b; key_c])
              (midnight + 400) (midnight + 1200) stale).
Proof.
  apply (retrieve_objects_skips_early_object archive "archive" (midnight + 400)
           (midnight + 1200) [] [key_b; key_c] key_a stale frame_a).
  - reflexivity.
  - vm_compute. reflexivity.
Defined.

(** X12. With a window that pandas can represent, an object that is no
    gzip stream ends the run: once the loop reaches its key, [OSError]
    escapes [retrieve_objects], no later key is fetched and the file stays
    as the earlier keys left it. *)
Theorem not_gzip_aborts_run (store : s3) (bucket : string)
    (before after : list string) (key : string) (start_time end_time : Z)
    (w w1 : world) :
  representable start_time = true -> representable end_time = true ->
  drain store bucket before (nanoseconds start_time) (nanoseconds end_time)
    (set_output [] w) = (w1, Exhausted) ->
  get_object store bucket key = Some NotGzip ->
  retrieve_objects store bucket (before ++ key :: after) start_time end_time w
  = (record_call (GetObject bucket key) w1, Some OSError).
Proof.
  intros Hs He Hbefore Hget. rewrite (retrieve_objects_in _ _ _ _ _ _ Hs He).
  rewrite (drain_app _ _ _ _ _ _ _ _ Hbefore). cbn [drain].
  unfold turn, try_body, fetch. now rewrite Hget.
Qed.

Lemma not_gzip_aborts_run_witness :
  retrieve_objects archive "archive" ([key_a] ++ key_not_gzip :: [key_c])
    midnight (midnight + 1200) stale
  = (record_call (GetObject "archive" key_not_gzip)
       (fst (drain archive "archive" [key_a] (nanoseconds midnight)
               (nanoseconds (midnight + 1200)) (set_output [] stale))),
     Some OSError).
Proof.
  apply (not_gzip_aborts_run archive "archive" [key_a] [key_c] key_not_gzip
           midnight (midnight + 1200) stale).
  - reflexivity.
  - reflexivity.
  - vm_compute. reflexivity.
  - reflexivity.
Defined.

(** X13. With a window that pandas can represent, an object whose records
    carry no [Timestamp] column ends the run: once the loop reaches its
    key, the [KeyError] handler fails with [NameError], which escapes
    [retrieve_objects]; no later key is fetched, nothing is printed and the
    file stays as the earlier keys left it. *)
Theorem missing_timestamp_aborts_run (store : s3) (bucket : string)
    (before after : list string) (key : string) (start_time end_time : Z)
    (w w1 : world) (df : DataFrame) :
  representable start_time = true -> representable end_time = true ->
  drain store bucket before (nanoseconds start_time) (nanoseconds end_time)
    (set_output [] w) = (w1, Exhausted) ->
  get_object store bucket key = Some (JsonLines df) ->
  index_of "Timestamp" (columns df) = None ->
  retrieve_objects store bucket (before ++ key :: after) start_time end_time w
  = (record_call (GetObject bucket key) w1, Some NameError).
Proof.
  intros Hs He Hbefore Hget Hcol. rewrite (retrieve_objects_in _ _ _ _ _ _ Hs He).
  rewrite (drain_app _ _ _ _ _ _ _ _ Hbefore). cbn [drain].
  unfold turn, try_body, fetch. rewrite Hget. cbn [bind read_frame].
  unfold filter_frame, getitem. now rewrite Hcol.
Qed.

Lemma missing_timestamp_aborts_run_witness :
  retrieve_objects archive "archive" ([key_a] ++ key_no_timestamp :: [key_c])
    midnight (midnight + 1200) stale
  = (record_call (GetObject "archive" key_no_timestamp)
       (fst (drain archive "archive" [key_a] (nanoseconds midnight)
               (nanoseconds (midnight + 1200)) (set_output [] stale))),
     Some NameError).
Proof.
  apply (missing_timestamp_aborts_run archive "archive" [key_a] [key_c]
           key_no_timestamp midnight (midnight + 1200) stale _ frame_no_timestamp).
  - reflexivity.
  - reflexivity.
  - vm_compute. reflexivity.
  - reflexivity.
  - reflexivity.
Defined.

Lemma turn_calls (store : s3) (bucket key : string) (start_time end_time : Z)
    (w : world) :
  s3_calls (fst (turn store bucket key start_time end_time w))
  = (s3_calls w ++ [GetObject bucket key])%list.
Proof.
  unfold turn.
  destruct (try_body store bucket key start_time end_time
              (output_csv (record_call (GetObject bucket key) w)))
    as [[[|] f]|[]]; reflexivity.
Qed.

Lemma drain_calls (store : s3) (bucket : string) (start_time end_time : Z)
    (keys : list string) :
  forall w,
    exists n,
      (n <= List.length keys)%nat
      /\ s3_calls (fst (drain store bucket keys start_time end_time w))
         = (s3_calls w ++ map (GetObject bucket) (firstn n keys))%list
      /\ (snd (drain store bucket keys start_time end_time w) = Exhausted ->
          n = List.length keys).
Proof.
  induction keys as [|key keys IH]; intros w.
  - exists O. cbn. rewrite app_nil_r. now repeat split.
  - cbn [drain].
    pose proof (turn_calls store bucket key start_time end_time w) as Hc.
    pose proof (turn_not_exhausted store bucket key start_time end_time w) as Hn.
    destruct (turn store bucket key start_time end_time w) as [w' [e|]];
      cbn [fst snd] in Hc, Hn |- *.
    + exists 1%nat. cbn [firstn map List.length]. split; [lia|].
      split; [exact Hc|]. intros ->. now elim Hn.
    + destruct (IH w') as (n & Hle & Hcalls & Hex).
      exists (S n). cbn [firstn map List.length]. split; [lia|]. split.
      * rewrite Hcalls, Hc, <- app_assoc. reflexivity.
      * intros H. now rewrite (Hex H).
Qed.

Lemma retrieve_objects_fetches (store : s3) (bucket : string)
    (keys : list string) (start_time end_time : Z) (w : world) :
  exists n,
    (n <= List.length keys)%nat
    /\ s3_calls (fst (retrieve_objects store bucket keys start_time end_time w))
       = (s3_calls w ++ map (GetObject bucket) (firstn n keys))%list.
Proof.
  destruct (representable start_time && representable end_time) eqn:Hwin.
  - apply andb_true_iff in Hwin as [Hs He].
    rewrite (retrieve_objects_in _ _ _ _ _ _ Hs He).
    destruct (drain_calls store bucket (nanoseconds start_time)
                (nanoseconds end_time) keys (set_output [] w)) as (n & Hn & Hc & _).
    exists n. split; [exact Hn|].
    destruct (drain store bucket keys (nanoseconds start_time)
                (nanoseconds end_time) (set_output [] w)) as [w' [| |e]]; exact Hc.
  - rewrite (retrieve_objects_out _ _ _ _ _ _ Hwin). exists O.
    split; [lia|]. cbn. now rewrite app_nil_r.
Qed.

(** X14. [retrieve_objects] calls the store for nothing but the objects of
    its keys: it fetches a leading part of the key list, each key once, in
    the order of the list, and lists nothing. *)
Theorem retrieve_objects_calls (store : s3) (bucket : string)
    (keys : list string) (start_time end_time : Z) (w : world) :
  exists n,
    (n <= List.length keys)%nat
    /\ s3_calls (fst (retrieve_objects store bucket keys start_time end_time w))
       = (s3_calls w ++ map (GetObject bucket) (firstn n keys))%list.
Proof. apply retrieve_objects_fetches. Qed.

Lemma turn_propagates (store : s3) (bucket key : string)
    (start_time end_time : Z) (w : world) (e : exn) :
  snd (turn store bucket key start_time end_time w) = Some (Propagated e) ->
  e <> ClientError /\ e <> ValueError /\ e <> KeyError.
Proof.
  unfold turn.
  destruct (try_body store bucket key start_time end_time
              (output_csv (record_call (GetObject bucket key) w)))
    as [[[|] f]|[]]; cbn [snd]; intros H; try discriminate;
    injection H as <-; repeat split; discriminate.
Qed.

Lemma drain_propagates (store : s3) (bucket : string) (start_time end_time : Z)
    (keys : list string) (e : exn) :
  forall w,
    snd (drain store bucket keys start_time end_time w) = Propagated e ->
    e <> ClientError /\ e <> ValueError /\ e <> KeyError.
Proof.
  induction keys as [|key keys IH]; intros w; cbn [drain]; [discriminate|].
  pose proof (turn_propagates store bucket key start_time end_time w e) as Ht.
  destruct (turn store bucket key start_time end_time w) as [w' [x|]];
    cbn [snd] in *.
  - intros ->. now apply Ht.
  - apply IH.
Qed.

(** X15. Of the three exception classes that the loop handles, none
    leaves the loop: [ClientError] and [KeyError] never leave
    [retrieve_objects], and [ValueError] leaves it in one case only, the
    conversion of a window that pandas cannot represent at lines 52-53,
    before the file is opened and before any fetch. *)
Theorem retrieve_objects_handles (store : s3) (bucket : string)
    (keys : list string) (start_time end_time : Z) (w : world) (e : exn) :
  snd (retrieve_objects store bucket keys start_time end_time w) = Some e ->
  e <> ClientError /\ e <> KeyError
  /\ (e = ValueError ->
      representable start_time && representable end_time = false
      /\ fst (retrieve_objects store bucket keys start_time end_time w) = w).
Proof.
  destruct (representable start_time && representable end_time) eqn:Hwin.
  - apply andb_true_iff in Hwin as [Hs He].
    rewrite (retrieve_objects_in _ _ _ _ _ _ Hs He).
    pose proof (drain_propagates store bucket (nanoseconds start_time)
                  (nanoseconds end_time) keys e (set_output [] w)) as Hd.
    destruct (drain store bucket keys (nanoseconds start_time)
                (nanoseconds end_time) (set_output [] w)) as [w' [| |x]];
      cbn [snd] in *; try discriminate.
    intros H. injection H as ->.
    destruct (Hd eq_refl) as (Hc & Hv & Hk). now repeat split.
  - rewrite (retrieve_objects_out _ _ _ _ _ _ Hwin). cbn [fst snd].
    intros H. injection H as <-. repeat split; discriminate.
Qed.

Lemma retrieve_objects_handles_witness :
  ValueError <> ClientError /\ ValueError <> KeyError
  /\ (ValueError = ValueError ->
      representable midnight && representable 100000000000000000 = false
      /\ fst (retrieve_objects archive "archive" [key_a; key_bad_json] midnight
                100000000000000000 stale) = stale).
Proof.
  apply (retrieve_objects_handles archive "archive" [key_a; key_bad_json]
           midnight 100000000000000000 stale ValueError).
  reflexivity.
Defined.

Lemma filter_frame_raises (df : DataFrame) (start_time end_time : Z)
    (f : list line) (e : exn) :
  filter_frame df start_time end_time f = Raise e ->
  e = KeyError \/ e = IndexError \/ e = TypeError.
Proof.
  assert (Hget : forall d name x, getitem d name = Raise x -> x = KeyError).
  { intros d name x. unfold getitem.
    destruct (index_of name (columns d)); congruence. }
  assert (Hcmp : forall op c t x, compare_time op c t = Raise x -> x = TypeError).
  { intros op c t x. destruct c; simpl; congruence. }
  assert (Hmap : forall op t l x,
             mapM (fun c => compare_time op c t) l = Raise x -> x = TypeError).
  { intros op t l x. induction l as [|c l IH]; cbn [mapM]; [discriminate|].
    destruct (compare_time op c t) as [b|y] eqn:Ec; cbn [bind].
    - destruct (mapM (fun c => compare_time op c t) l) as [bs|y] eqn:El;
        cbn [bind]; [discriminate|].
      intros H. injection H as <-. now apply IH.
    - intros H. injection H as <-. now apply Hcmp in Ec. }
  unfold filter_frame.
  destruct (getitem df "Timestamp") as [ts|x] eqn:E1; cbn [bind];
    [|intros H; injection H as <-; left; eauto].
  destruct (iloc_last ts) as [c|x] eqn:E2; cbn [bind];
    [|intros H; injection H as <-; right; left;
      destruct ts; simpl in E2; congruence].
  destruct (compare_time Z.ltb c start_time) as [b|x] eqn:E3; cbn [bind];
    [|intros H; injection H as <-; right; right; eauto].
  destruct b; [discriminate|].
  destruct (iloc_first ts) as [c0|x] eqn:E4; cbn [bind];
    [|intros H; injection H as <-; right; left;
      destruct ts; simpl in E4; congruence].
  destruct (compare_time Z.gtb c0 end_time) as [b|x] eqn:E5; cbn [bind];
    [|intros H; injection H as <-; right; right; eauto].
  destruct b; [discriminate|].
  destruct (getitem df "Type") as [ty|x] eqn:E6; cbn [bind];
    [|intros H; injection H as <-; left; eauto].
  destruct (getitem (select df (map (eq_str wanted_type) ty)) "Timestamp")
    as [ts1|x] eqn:E7; cbn [bind];
    [|intros H; injection H as <-; left; eauto].
  destruct (mapM (fun c => compare_time Z.geb c start_time) ts1)
    as [ge|x] eqn:E8; cbn [bind];
    [|intros H; injection H as <-; right; right; eauto].
  destruct (mapM (fun c => compare_time Z.leb c end_time) ts1)
    as [le|x] eqn:E9; cbn [bind];
    [discriminate|intros H; injection H as <-; right; right; eauto].
Qed.

(** What one turn prints: nothing, or the failure of its key. *)
Lemma turn_prints (store : s3) (bucket key : string) (start_time end_time : Z)
    (w : world) :
  stdout (fst (turn store bucket key start_time end_time w)) = stdout w
  \/ (stdout (fst (turn store bucket key start_time end_time w))
      = (stdout w ++ [FailedToRead key])%list
      /\ get_object store bucket key = None)
  \/ (stdout (fst (turn store bucket key start_time end_time w))
      = (stdout w ++ [FailedToParse key])%list
      /\ get_object store bucket key = Some BadJson).
Proof.
  unfold turn, try_body, fetch. cbn [record_call output_csv].
  destruct (get_object store bucket key) as [[| | |df]|]; cbn [bind read_frame].
  - now left.
  - now left.
  - right; right. now split.
  - destruct (filter_frame df start_time end_time (output_csv w))
      as [[[|] f]|e] eqn:Hf; try now left.
    apply filter_frame_raises in Hf as [-> | [-> | ->]]; now left.
  - right; left. now split.
Qed.

Lemma drain_prints (store : s3) (bucket : string) (start_time end_time : Z)
    (all keys : list string) :
  incl keys all ->
  forall w,
    exists msgs,
      stdout (fst (drain store bucket keys start_time end_time w))
      = (stdout w ++ msgs)%list
      /\ Forall (reports store bucket all) msgs
      /\ (List.length msgs <= List.length keys)%nat.
Proof.
  induction keys as [|key keys IH]; intros Hin w.
  - exists []. cbn. rewrite app_nil_r. now repeat split.
  - cbn [drain].
    assert (Hkey : In key all) by (apply Hin; now left).
    assert (Hrest : incl keys all) by (intros k Hk; apply Hin; now right).
    pose proof (turn_prints store bucket key start_time end_time w) as Hp.
    assert (Hone : exists m1,
               stdout (fst (turn store bucket key start_time end_time w))
               = (stdout w ++ m1)%list
               /\ Forall (reports store bucket all) m1
               /\ (List.length m1 <= 1)%nat).
    { destruct Hp as [Hp | [[Hp Hg] | [Hp Hg]]].
      - exists []. rewrite app_nil_r. repeat split; trivial. simpl. lia.
      - exists [FailedToRead key]. repeat split; trivial.
        constructor; [|constructor]. exists key. split; [exact Hkey|]. now left.
      - exists [FailedToParse key]. repeat split; trivial.
        constructor; [|constructor]. exists key. split; [exact Hkey|]. now right. }
    destruct Hone as (m1 & H1 & F1 & L1).
    destruct (turn store bucket key start_time end_time w) as [w' [e|]];
      cbn [fst] in H1 |- *.
    + exists m1. repeat split; trivial. simpl. lia.
    + destruct (IH Hrest w') as (m2 & H2 & F2 & L2).
      exists (m1 ++ m2)%list. rewrite H2, H1, <- app_assoc.
      repeat split; trivial.
      * apply Forall_app. now split.
      * rewrite length_app. simpl. lia.
Qed.

(** X16. All that [retrieve_objects] prints is failure reports about its
    keys, at most one a key: a read failure names a key whose fetch failed,
    a parse failure names a key whose content is no line-delimited JSON. *)
Theorem retrieve_objects_prints (store : s3) (bucket : string)
    (keys : list string) (start_time end_time : Z) (w : world) :
  exists msgs,
    stdout (fst (retrieve_objects store bucket keys start_time end_time w))
    = (stdout w ++ msgs)%list
    /\ Forall (reports store bucket keys) msgs
    /\ (List.length msgs <= List.length keys)%nat.
Proof.
  destruct (representable start_time && representable end_time) eqn:Hwin.
  - apply andb_true_iff in Hwin as [Hs He].
    rewrite (retrieve_objects_in _ _ _ _ _ _ Hs He).
    destruct (drain_prints store bucket (nanoseconds start_time)
                (nanoseconds end_time) keys keys (incl_refl keys) (set_output [] w))
      as (msgs & Hm & Hf & Hl).
    exists msgs.
    destruct (drain store bucket keys (nanoseconds start_time)
                (nanoseconds end_time) (set_output [] w)) as [w' [| |e]];
      now repeat split.
  - rewrite (retrieve_objects_out _ _ _ _ _ _ Hwin). exists [].
    cbn [fst]. rewrite app_nil_r. repeat split; [constructor | simpl; lia].
Qed.

(** ** [main] *)

Lemma main_not_runnable (store : s3) (a : args) (w : world) :
  runnable a = false -> exists m, main store a w = (print m w, None).
Proof.
  unfold runnable, main. intros H.
  destruct (truthy_str (arg_bucket a)) eqn:Hb; cbn [negb]; [|now eexists].
  destruct (truthy_str (arg_prefix a)) eqn:Hp; cbn [negb]; [|now eexists].
  destruct (arg_bucket a) as [bucket|]; [|discriminate].
  destruct (arg_prefix a) as [prefix|]; [|discriminate].
  destruct (arg_start_time a) as [start_time|]; [|now eexists].
  destruct (arg_end_time a) as [end_time|]; [|now eexists].
  destruct (truthy_int (Some start_time) && truthy_int (Some end_time)) eqn:Ht;
    [|now eexists].
  apply andb_true_iff in Ht as [Hs He]. rewrite Hs, He in H. cbn [andb] in H.
  destruct (Z.geb_spec start_time end_time); [now eexists|].
  apply Z.ltb_ge in H. lia.
Qed.

Lemma main_runnable (store : s3) (a : args) (w : world) :
  runnable a = true ->
  exists bucket prefix start_time end_time,
    arg_bucket a = Some bucket /\ arg_prefix a = Some prefix
    /\ arg_start_time a = Some start_time /\ arg_end_time a = Some end_time
    /\ start_time < end_time
    /\ main store a w
       = match get_s3_keys store bucket prefix start_time w with
         | (Raise e, w') => (w', Some e)
         | (Return keys, w') =>
             retrieve_objects store bucket keys start_time end_time w'
         end.
Proof.
  unfold runnable, main. rewrite !andb_true_iff.
  intros ((((Hb & Hp) & Hs) & He) & Hlt). rewrite Hb, Hp. cbn [negb].
  destruct (arg_bucket a) as [bucket|]; [|discriminate].
  destruct (arg_prefix a) as [prefix|]; [|discriminate].
  destruct (arg_start_time a) as [start_time|]; [|discriminate].
  destruct (arg_end_time a) as [end_time|]; [|discriminate].
  rewrite Hs, He. cbn [andb]. apply Z.ltb_lt in Hlt.
  destruct (Z.geb_spec start_time end_time); [lia|].
  now exists bucket, prefix, start_time, end_time.
Qed.

Lemma in_firstn {A : Type} (n : nat) (l : list A) (x : A) :
  In x (firstn n l) -> In x l.
Proof.
  revert l. induction n as [|n IH]; intros [|y l] H; try contradiction.
  destruct H as [-> | H]; [now left | right; now apply IH].
Qed.

Lemma in_calls_after_listing (c : call) (calls : list call)
    (bucket prefix : string) (n : nat) (b k : string) :
  In (GetObject b k) (calls ++ repeat (ListObjectsV2 bucket prefix) n)%list ->
  In (GetObject b k) calls.
Proof.
  intros H. apply in_app_or in H as [H | H]; [exact H|].
  apply repeat_spec in H. discriminate.
Qed.

(** X17. [main] touches nothing unless its arguments pass every check (a
    bucket and a prefix that are not empty, two timestamps that are not
    zero, the start before the end): otherwise it prints one line and
    returns, without a call to the store and without opening [output.csv].
    When they pass, its first call to the store lists the prefix. *)
Theorem main_checks_arguments (store : s3) (a : args) (w : world) :
  (runnable a = false ->
   snd (main store a w) = None
   /\ s3_calls (fst (main store a w)) = s3_calls w
   /\ output_csv (fst (main store a w)) = output_csv w
   /\ exists m, stdout (fst (main store a w)) = (stdout w ++ [m])%list)
  /\ (runnable a = true ->
      exists bucket prefix rest,
        arg_bucket a = Some bucket /\ arg_prefix a = Some prefix
        /\ s3_calls (fst (main store a w))
           = (s3_calls w ++ ListObjectsV2 bucket prefix :: rest)%list).
Proof.
  split; intros H.
  - destruct (main_not_runnable store a w H) as [m ->].
    repeat split. now exists m.
  - destruct (main_runnable store a w H)
      as (bucket & prefix & st & en & Hb & Hp & _ & _ & _ & ->).
    exists bucket, prefix. unfold get_s3_keys.
    destruct (list_loop_calls bucket prefix st (list_objects_v2 store bucket prefix)
                [] w) as (n & Hn & Hc & _).
    destruct (list_loop bucket prefix (list_objects_v2 store bucket prefix) st [] w)
      as [[keys|e] w1]; cbn [snd] in Hc.
    + destruct (retrieve_objects_fetches store bucket keys st en w1)
        as (m & _ & Hf).
      destruct n as [|n]; [lia|]. cbn [repeat] in Hc.
      eexists. split; [exact Hb|]. split; [exact Hp|].
      rewrite Hf, Hc, <- app_assoc. reflexivity.
    + destruct n as [|n]; [lia|]. cbn [repeat] in Hc.
      eexists. split; [exact Hb|]. split; [exact Hp|]. exact Hc.
Qed.

Lemma main_checks_arguments_witness :
  snd (main archive (run_args midnight (midnight + 540) "") stale) = None
  /\ s3_calls (fst (main archive (run_args midnight (midnight + 540) "") stale))
     = s3_calls stale
  /\ output_csv (fst (main archive (run_args midnight (midnight + 540) "") stale))
     = output_csv stale
  /\ exists m,
       stdout (fst (main archive (run_args midnight (midnight + 540) "") stale))
       = (stdout stale ++ [m])%list.
Proof.
  apply (main_checks_arguments archive (run_args midnight (midnight + 540) "") stale).
  reflexivity.
Defined.

(** X18. With arguments that pass the checks and a listing in which every
    page carries ['Contents'] and every key is decodable, [main] is the
    listing followed by [retrieve_objects] over the listed keys that do not
    end before the window start, in listing order. *)
Theorem main_lists_then_retrieves (store : s3) (w : world)
    (bucket prefix : string) (start_time end_time : Z) :
  runnable (mk_args (Some start_time) (Some end_time) (Some bucket) (Some prefix))
  = true ->
  every_page_lists (list_objects_v2 store bucket prefix) = true ->
  Forall decodable (listed_keys (list_objects_v2 store bucket prefix)) ->
  main store (mk_args (Some start_time) (Some end_time) (Some bucket) (Some prefix)) w
  = retrieve_objects store bucket
      (filter (ends_in_window start_time)
         (listed_keys (list_objects_v2 store bucket prefix)))
      start_time end_time
      (snd (get_s3_keys store bucket prefix start_time w)).
Proof.
  intros Hrun Hp Hd.
  destruct (main_runnable store _ w Hrun)
    as (b & p & st & en & Hb & Hpre & Hs & He & _ & ->).
  cbn in Hb, Hpre, Hs, He.
  injection Hb as <-. injection Hpre as <-. injection Hs as <-. injection He as <-.
  unfold get_s3_keys.
  pose proof (list_loop_lists bucket prefix start_time _ Hp Hd [] w) as Hk.
  destruct (list_loop bucket prefix (list_objects_v2 store bucket prefix)
              start_time [] w) as [r w1].
  cbn [fst snd] in *. now subst r.
Qed.

Lemma main_lists_then_retrieves_witness :
  main archive (mk_args (Some midnight) (Some (midnight + 540)) (Some "archive")
                  (Some "ember/trades/")) stale
  = retrieve_objects archive "archive"
      (filter (ends_in_window midnight)
         (listed_keys (list_objects_v2 archive "archive" "ember/trades/")))
      midnight (midnight + 540)
      (snd (get_s3_keys archive "archive" "ember/trades/" midnight stale)).
Proof.
  apply (main_lists_then_retrieves archive stale "archive" "ember/trades/"
           midnight (midnight + 540)).
  - reflexivity.
  - reflexivity.
  - repeat constructor; eexists; vm_compute; reflexivity.
Defined.

(** X19. [main] never fetches an object that the pruning discards: every
    object it fetches is stored under a key of the listing of its bucket
    and prefix whose decoded end-time is not before the window start. *)
Theorem main_fetches_unpruned_only (store : s3) (a : args) (w : world)
    (b k : string) :
  In (GetObject b k) (s3_calls (fst (main store a w))) ->
  In (GetObject b k) (s3_calls w)
  \/ exists prefix start_time,
       arg_bucket a = Some b /\ arg_prefix a = Some prefix
       /\ arg_start_time a = Some start_time
       /\ In k (listed_keys (list_objects_v2 store b prefix))
       /\ ends_in_window start_time k = true.
Proof.
  intros Hin. destruct (runnable a) eqn:Hrun.
  - destruct (main_runnable store a w Hrun)
      as (bucket & prefix & st & en & Hb & Hp & Hs & _ & _ & Hmain).
    rewrite Hmain in Hin. clear Hmain. unfold get_s3_keys in Hin.
    destruct (list_loop_calls bucket prefix st (list_objects_v2 store bucket prefix)
                [] w) as (n & _ & Hc & _).
    pose proof (list_loop_returns bucket prefix st
                  (list_objects_v2 store bucket prefix) [] ) as Hret.
    pose proof (list_loop_lists bucket prefix st
                  (list_objects_v2 store bucket prefix)) as Hlists.
    destruct (list_loop bucket prefix (list_objects_v2 store bucket prefix) st [] w)
      as [[keys|e] w1] eqn:Hloop; cbn [fst snd] in *.
    + destruct (Hret keys w) as [Hpages Hdec]; [now rewrite Hloop|].
      specialize (Hlists Hpages Hdec [] w). rewrite Hloop in Hlists.
      cbn [fst app] in Hlists. injection Hlists as ->.
      destruct (retrieve_objects_fetches store bucket
                  (filter (ends_in_window st)
                     (listed_keys (list_objects_v2 store bucket prefix)))
                  st en w1) as (m & _ & Hf).
      rewrite Hf, Hc in Hin. apply in_app_or in Hin as [Hin | Hin].
      * left. now apply (in_calls_after_listing (GetObject b k)) in Hin.
      * right. apply in_map_iff in Hin as (key & Hkey & Hfirst).
        injection Hkey as <- <-. apply in_firstn in Hfirst.
        apply filter_In in Hfirst as [Hl He].
        now exists prefix, st.
    + rewrite Hc in Hin. left.
      now apply (in_calls_after_listing (GetObject b k)) in Hin.
  - destruct (main_not_runnable store a w Hrun) as [m Hmain].
    rewrite Hmain in Hin. now left.
Qed.

Lemma main_fetches_unpruned_only_witness :
  In (GetObject "archive" key_b) (s3_calls stale)
  \/ exists prefix start_time,
       arg_bucket (run_args (midnight + 60) (midnight + 540) "ember/trades/")
       = Some "archive"
       /\ arg_prefix (run_args (midnight + 60) (midnight + 540) "ember/trades/")
          = Some prefix
       /\ arg_start_time (run_args (midnight + 60) (midnight + 540) "ember/trades/")
          = Some start_time
       /\ In key_b (listed_keys (list_objects_v2 archive "archive" prefix))
       /\ ends_in_window start_time key_b = true.
Proof.
  apply (main_fetches_unpruned_only archive
           (run_args (midnight + 60) (midnight + 540) "ember/trades/") stale).
  vm_compute. right. right. left. reflexivity.
Defined.
